(** * Sky_Hub_Project (CS Community): identity and interaction model

    A shallow embedding of the route handlers of [app.py] and [oauth.py]
    over the SQLAlchemy schema of [models.py].  Python strings are lists
    of Unicode code points, integer columns are [Z], tables keyed by their
    primary key are [gmap]s, and the [user] and [like] tables, which are
    read with [.first()] in insertion order, are lists. *)

From Stdlib Require Import ZArith Lia.
From stdpp Require Import base gmap list strings.

Open Scope Z_scope.

(** ** Python values *)

(** A Python [str]: its sequence of code points. *)
Definition pystr := list Z.

(** An ASCII literal as a Python string. *)
Definition lit (s : string) : pystr :=
  map (fun a => Z.of_nat (Ascii.nat_of_ascii a)) (String.list_ascii_of_string s).

(** Truthiness of an [int]: [x or y]. *)
Definition int_or (x y : Z) : Z := if Z.eqb x 0 then y else x.

(** Truthiness of a [str]: [s or t]. *)
Definition str_or (s t : pystr) : pystr :=
  match s with [] => t | _ => s end.

(** Exceptions the modelled code can raise. *)
Inductive exn :=
  | InvalidRequestError   (* sqlalchemy.exc.InvalidRequestError *)
  | TypeError             (* invalid keyword argument to a model constructor *)
  | IntegrityError        (* a NOT NULL or UNIQUE constraint rejected a commit *)
  | AttributeError.       (* attribute looked up on None *)

(** What a Flask route hands back: a redirect to an endpoint, a rendered
    template, an [abort(code)], or an uncaught exception (HTTP 500).  The
    messages [flash]ed during the request travel with the response. *)
Inductive response :=
  | Redirect (endpoint : string) (flashes : list string)
  | Render (template : string) (flashes : list string)
  | Abort (code : Z)
  | ServerError (e : exn).

(** ** The schema of [models.py] *)

Record user := mkUser {
  user_id : Z;
  username : pystr;
  email : pystr;
  password_hash : option pystr;   (* nullable=False: checked at commit *)
  track : option pystr;
  skills : option pystr;
  available_for_project : bool;
  github_link : option pystr;
  portfolio_link : option pystr;
  linkedin_link : option pystr;
  phone_number : option pystr;
  cv_file : option pystr;
  profile_image : pystr
}.

Record post := mkPost {
  post_id : Z;
  title : option pystr;           (* nullable=False: checked at commit *)
  content : option pystr;
  image_file : option pystr;
  video_file : option pystr;
  post_user_id : Z;
  likes_count : Z
}.

Record comment := mkComment {
  comment_id : Z;
  comment_content : option pystr;
  comment_user_id : Z;
  comment_post_id : Z
}.

Record like := mkLike {
  like_user_id : Z;
  like_post_id : Z
}.

Record db := mkDb {
  users : list user;
  posts : gmap Z post;
  comments : gmap Z comment;
  likes : list like
}.

Definition set_likes_count (p : post) (n : Z) : post :=
  mkPost (post_id p) (title p) (content p) (image_file p) (video_file p)
         (post_user_id p) n.

Definition set_posts (d : db) (ps : gmap Z post) : db :=
  mkDb (users d) ps (comments d) (likes d).

Definition set_comments (d : db) (cs : gmap Z comment) : db :=
  mkDb (users d) (posts d) cs (likes d).

Definition set_likes (d : db) (ls : list like) : db :=
  mkDb (users d) (posts d) (comments d) ls.

(** ** The [Like] table and its [uix_user_post] constraint *)

(** [Like.query.filter_by(user_id=uid, post_id=pid)]. *)
Definition like_matches (uid pid : Z) (l : like) : bool :=
  Z.eqb (like_user_id l) uid && Z.eqb (like_post_id l) pid.

Definition same_pair (l l' : like) : bool :=
  like_matches (like_user_id l) (like_post_id l) l'.

(** [UniqueConstraint("user_id", "post_id")]: no two rows share a pair. *)
Fixpoint unique_pairs (ls : list like) : bool :=
  match ls with
  | [] => true
  | l :: r => negb (existsb (same_pair l) r) && unique_pairs r
  end.

(** [db.session.delete(existing)] for the row [.first()] returned. *)
Fixpoint remove_first (f : like -> bool) (ls : list like) : list like :=
  match ls with
  | [] => []
  | l :: r => if f l then r else l :: remove_first f r
  end.

(** The cardinality of a post's Like set. *)
Definition count_likes (pid : Z) (ls : list like) : Z :=
  Z.of_nat (length (List.filter (fun l => Z.eqb (like_post_id l) pid) ls)).

(** ** [toggle_like] (app.py)

    The row change and the counter change are committed together; a
    commit the unique constraint rejects is rolled back. *)
Definition toggle_like (current_uid post_id' : Z) (d : db) : response * db :=
  match posts d !! post_id' with
  | None => (Abort 404, d)
  | Some p =>
      let '(likes', count', msg) :=
        match find (like_matches current_uid post_id') (likes d) with
        | Some _ =>
            (remove_first (like_matches current_uid post_id') (likes d),
             Z.max (int_or (likes_count p) 1 - 1) 0, "Like removed."%string)
        | None =>
            (likes d ++ [mkLike current_uid post_id'],
             int_or (likes_count p) 0 + 1, "Post liked!"%string)
        end in
      let d' := mkDb (users d) (<[post_id' := set_likes_count p count']> (posts d))
                     (comments d) likes' in
      if unique_pairs likes'
      then (Redirect "post_detail" [msg], d')
      else (Redirect "post_detail" [msg; "Database error. Please try again."%string], d)
  end.

(** Whether [uid] has a Like on [pid] ([post_detail]'s [liked]). *)
Definition liked (uid pid : Z) (d : db) : bool :=
  existsb (like_matches uid pid) (likes d).

Fixpoint run_toggles (ops : list (Z * Z)) (d : db) : db :=
  match ops with
  | [] => d
  | (uid, pid) :: rest => run_toggles rest (snd (toggle_like uid pid d))
  end.

(** The consistency the spec asks of the denormalized counter. *)
Definition like_inv (d : db) : Prop :=
  unique_pairs (likes d) = true /\
  map_Forall (fun pid p => likes_count p = count_likes pid (likes d)) (posts d).

(** No counter is negative. *)
Definition counts_nonneg (d : db) : Prop :=
  map_Forall (fun _ p => 0 <= likes_count p) (posts d).

#[global] Instance like_inv_dec (d : db) : Decision (like_inv d).
Proof. unfold like_inv. apply _. Defined.

#[global] Instance counts_nonneg_dec (d : db) : Decision (counts_nonneg d).
Proof. unfold counts_nonneg. apply _. Defined.

(** ** Python string helpers *)

(** [str.isspace] on one code point (the Unicode whitespace set). *)
Definition py_isspace (c : Z) : bool :=
  ((9 <=? c) && (c <=? 13)) || ((28 <=? c) && (c <=? 32)) ||
  (c =? 133) || (c =? 160) || (c =? 5760) ||
  ((8192 <=? c) && (c <=? 8202)) || (c =? 8232) || (c =? 8233) ||
  (c =? 8239) || (c =? 8287) || (c =? 12288).

Fixpoint lstrip (s : pystr) : pystr :=
  match s with
  | [] => []
  | c :: r => if py_isspace c then lstrip r else s
  end.

Definition rstrip (s : pystr) : pystr := rev (lstrip (rev s)).

(** [str.strip()]. *)
Definition strip (s : pystr) : pystr := rstrip (lstrip s).

(** [s[:n]]. *)
Definition slice_to (n : nat) (s : pystr) : pystr := firstn n s.

(** [strip_filter] of forms.py: [x.strip() if x else None]. *)
Definition strip_filter (x : option pystr) : option pystr :=
  match x with
  | None | Some [] => None
  | Some s => Some (strip s)
  end.

(** [x or ""] for an optional string field. *)
Definition or_empty (x : option pystr) : pystr :=
  match x with Some s => s | None => [] end.

(** U+2026 HORIZONTAL ELLIPSIS. *)
Definition ellipsis : Z := 8230.

(** ** [new_post] (app.py)

    [title_data] and [content_data] are [form.title.data] and
    [form.content.data], i.e. the raw fields passed through
    [strip_filter]; [form_valid] is [form.validate_on_submit()]; the
    image and video arguments are the saved [secure_filename]s. *)
Definition new_post_title (title_data content_data : option pystr) : pystr :=
  let content_text := or_empty content_data in
  let auto_title := strip (or_empty title_data) in
  let auto_title :=
    match auto_title with
    | [] => strip (slice_to 80 content_text) ++
            (if Nat.ltb 80 (length content_text) then [ellipsis] else [])
    | _ => auto_title
    end in
  str_or auto_title (lit "Untitled").

(** The id the database assigns to the next inserted post. *)
Definition fresh_post_id (ps : gmap Z post) : Z :=
  map_fold (fun k _ acc => Z.max k acc) 0 ps + 1.

Definition new_post (current_uid : Z) (form_valid : bool)
    (raw_title raw_content : option pystr) (image_filename video_filename : option pystr)
    (d : db) : response * db :=
  if negb form_valid then (Render "new_post.html" [], d) else
  let title_data := strip_filter raw_title in
  let content_data := strip_filter raw_content in
  let pid := fresh_post_id (posts d) in
  let p := mkPost pid (Some (new_post_title title_data content_data))
                  (Some (or_empty content_data)) image_filename video_filename
                  current_uid 0 in
  (Redirect "post_detail" ["Post published to CS Community."%string],
   set_posts d (<[pid := p]> (posts d))).

(** ** Python values and the [User] mapping *)

Definition pystr_eqb (a b : pystr) : bool := bool_decide (a = b).

(** A value bound to a keyword argument or compared by [filter_by]. *)
Inductive pyval := VStr (s : pystr) | VBool (b : bool) | VNone.

Definition pyval_of_opt (o : option pystr) : pyval :=
  match o with Some s => VStr s | None => VNone end.

Definition pyval_eqb (a b : pyval) : bool :=
  match a, b with
  | VStr x, VStr y => pystr_eqb x y
  | VBool x, VBool y => Bool.eqb x y
  | VNone, VNone => true
  | _, _ => false
  end.

(** The attributes [models.User] maps: its columns and relationships. *)
Definition user_attributes : list string :=
  ["id"; "username"; "email"; "password_hash"; "track"; "skills";
   "available_for_project"; "github_link"; "portfolio_link"; "linkedin_link";
   "phone_number"; "cv_file"; "profile_image"; "posts"; "comments"; "likes"]%string.

Definition is_user_attribute (name : string) : bool :=
  existsb (String.eqb name) user_attributes.

(** The value of a column of a [User] row. *)
Definition user_column (u : user) (name : string) : pyval :=
  match name with
  | "username" => VStr (username u)
  | "email" => VStr (email u)
  | "password_hash" => pyval_of_opt (password_hash u)
  | "track" => pyval_of_opt (track u)
  | "skills" => pyval_of_opt (skills u)
  | "available_for_project" => VBool (available_for_project u)
  | "github_link" => pyval_of_opt (github_link u)
  | "portfolio_link" => pyval_of_opt (portfolio_link u)
  | "linkedin_link" => pyval_of_opt (linkedin_link u)
  | "phone_number" => pyval_of_opt (phone_number u)
  | "cv_file" => pyval_of_opt (cv_file u)
  | "profile_image" => VStr (profile_image u)
  | _ => VNone
  end%string.

(** [User.query.filter_by(name=v).first()]: SQLAlchemy resolves [name] in
    the entity's namespace and raises [InvalidRequestError] when [User]
    has no such attribute. *)
Definition filter_by_first (name : string) (v : pyval) (us : list user) : exn + option user :=
  if is_user_attribute name
  then inr (find (fun u => pyval_eqb (user_column u name) v) us)
  else inl InvalidRequestError.

(** Assigning one keyword argument of the declarative constructor. *)
Definition set_user_field (u : user) (name : string) (v : pyval) : user :=
  let o := match v with VStr s => Some s | _ => None end in
  let s := match v with VStr s => s | _ => [] end in
  match name with
  | "username" => mkUser (user_id u) s (email u) (password_hash u) (track u) (skills u)
      (available_for_project u) (github_link u) (portfolio_link u) (linkedin_link u)
      (phone_number u) (cv_file u) (profile_image u)
  | "email" => mkUser (user_id u) (username u) s (password_hash u) (track u) (skills u)
      (available_for_project u) (github_link u) (portfolio_link u) (linkedin_link u)
      (phone_number u) (cv_file u) (profile_image u)
  | "track" => mkUser (user_id u) (username u) (email u) (password_hash u) o (skills u)
      (available_for_project u) (github_link u) (portfolio_link u) (linkedin_link u)
      (phone_number u) (cv_file u) (profile_image u)
  | "skills" => mkUser (user_id u) (username u) (email u) (password_hash u) (track u) o
      (available_for_project u) (github_link u) (portfolio_link u) (linkedin_link u)
      (phone_number u) (cv_file u) (profile_image u)
  | "available_for_project" => mkUser (user_id u) (username u) (email u) (password_hash u)
      (track u) (skills u) (match v with VBool b => b | _ => false end)
      (github_link u) (portfolio_link u) (linkedin_link u)
      (phone_number u) (cv_file u) (profile_image u)
  | "cv_file" => mkUser (user_id u) (username u) (email u) (password_hash u) (track u) (skills u)
      (available_for_project u) (github_link u) (portfolio_link u) (linkedin_link u)
      (phone_number u) o (profile_image u)
  | "profile_image" => mkUser (user_id u) (username u) (email u) (password_hash u) (track u)
      (skills u) (available_for_project u) (github_link u) (portfolio_link u)
      (linkedin_link u) (phone_number u) (cv_file u) s
  | _ => u
  end%string.

(** A [User] before any keyword argument: no password hash, the column
    defaults for [available_for_project] and [profile_image]. *)
Definition blank_user : user :=
  mkUser 0 [] [] None None None true None None None None None (lit "default_profile.png").

(** [User(...)] with keyword arguments: the declarative constructor raises [TypeError] for a
    keyword that is not an attribute of the class. *)
Definition construct_user (kwargs : list (string * pyval)) : exn + user :=
  fold_left (fun acc kv =>
    match acc with
    | inl e => inl e
    | inr u => if is_user_attribute (fst kv) then inr (set_user_field u (fst kv) (snd kv))
               else inl TypeError
    end) kwargs (inr blank_user).

Definition set_user_id (u : user) (i : Z) : user :=
  mkUser i (username u) (email u) (password_hash u) (track u) (skills u)
    (available_for_project u) (github_link u) (portfolio_link u) (linkedin_link u)
    (phone_number u) (cv_file u) (profile_image u).

Definition next_user_id (us : list user) : Z :=
  fold_left (fun acc u => Z.max acc (user_id u)) us 0 + 1.

(** [db.session.add(user); db.session.commit()]: the NOT NULL constraint
    on [password_hash] and the UNIQUE constraints on [username] and
    [email] are checked; a violation raises [IntegrityError]. *)
Definition insert_user (u : user) (d : db) : exn + (Z * db) :=
  match password_hash u with
  | None => inl IntegrityError
  | Some _ =>
      if existsb (fun v => pystr_eqb (username v) (username u) || pystr_eqb (email v) (email u))
                 (users d)
      then inl IntegrityError
      else let i := next_user_id (users d) in
           inr (i, mkDb (users d ++ [set_user_id u i]) (posts d) (comments d) (likes d))
  end.

(** [User.check_password]: werkzeug's [check_password_hash] splits the
    stored hash, which raises [AttributeError] on [None]. *)
Definition check_password (check_password_hash : pystr -> pystr -> bool)
    (u : user) (password : pystr) : exn + bool :=
  match password_hash u with
  | None => inl AttributeError
  | Some h => inr (check_password_hash h password)
  end.

(** ** [google_callback] and its helpers (oauth.py) *)

(** The parsed ID token: its claims as a dictionary. *)
Definition claims := list (string * pystr).

(** [user_info.get(key)]. *)
Definition dict_get (key : string) (ui : claims) : option pystr :=
  option_map snd (find (fun kv => String.eqb (fst kv) key) ui).

(** [user_info.get(key, default)]. *)
Definition dict_get_default (key : string) (default : pystr) (ui : claims) : pystr :=
  match dict_get key ui with Some v => v | None => default end.

(** [str.lower()], on the ASCII capitals. *)
Definition lower (s : pystr) : pystr :=
  map (fun c => if (65 <=? c) && (c <=? 90) then c + 32 else c) s.

(** [str.replace(" ", "_")]. *)
Definition replace_space (s : pystr) : pystr :=
  map (fun c => if c =? 32 then 95 else c) s.

(** [_download_google_picture]: [download] is the outcome of
    [urllib.request.urlretrieve] (the generated file name, or [None] when
    it raised). *)
Definition download_google_picture (picture_url : pystr) (download : option pystr) : pystr :=
  match picture_url with
  | [] => lit "default_profile.png"
  | _ => match download with Some fn => fn | None => lit "default_profile.png" end
  end.

(** [_unique_username]: [hex6] is [uuid.uuid4().hex[:6]]. *)
Definition unique_username (base hex6 : pystr) (us : list user) : exn + pystr :=
  let candidate := str_or base (lit "user") in
  match filter_by_first "username" (VStr candidate) us with
  | inl e => inl e
  | inr None => inr candidate
  | inr (Some _) => inr (candidate ++ lit "_" ++ hex6)
  end.

(** The [username=] argument of the new-account branch. *)
Definition sso_new_username (ui : claims) (hex6 : pystr) (us : list user) : exn + pystr :=
  let name := dict_get_default "name" [] ui in
  let base_username := slice_to 40 (lower (replace_space name)) in
  match unique_username base_username hex6 us with
  | inl e => inl e
  | inr uname => inr (str_or (slice_to 50 (dict_get_default "given_name" uname ui)) uname)
  end.

(** The outcome of a request: the response, the committed database and
    the user id [login_user] put in the session. *)
Definition outcome := (response * db * option Z)%type.

(** [google_callback]: [token_ok] is whether [authorize_access_token]
    succeeded and [id_token] is [parse_id_token]'s result ([None] when it
    raised, nonce mismatch included). *)
Definition google_callback (token_ok : bool) (id_token : option claims)
    (download : option pystr) (hex6 : pystr) (d : db) : outcome :=
  let to_login flash := (Redirect "login" [flash], d, None) in
  if negb token_ok then to_login "Google sign-in failed. Please try again."%string else
  match id_token with
  | None => to_login "Authentication error. Please try again."%string
  | Some ui =>
    let google_id := dict_get "sub" ui in
    let email' := dict_get_default "email" [] ui in
    let picture := dict_get_default "picture" [] ui in
    match google_id, email' with
    | None, _ | Some [], _ | _, [] =>
        to_login "Could not retrieve your Google account details."%string
    | Some gid, _ =>
      match filter_by_first "google_id" (VStr gid) (users d) with
      | inl e => (ServerError e, d, None)
      | inr (Some u) => (Redirect "home" [], d, Some (user_id u))
      | inr None =>
        match filter_by_first "email" (VStr email') (users d) with
        | inl e => (ServerError e, d, None)
        | inr (Some u) =>
            (* [user.google_id = google_id] sets a plain, unmapped instance
               attribute: the commit writes nothing. *)
            (Redirect "home" [], d, Some (user_id u))
        | inr None =>
          let profile_fn := download_google_picture picture download in
          match sso_new_username ui hex6 (users d) with
          | inl e => (ServerError e, d, None)
          | inr uname =>
            match construct_user [("username", VStr uname); ("email", VStr email');
                                  ("google_id", VStr gid); ("profile_image", VStr profile_fn);
                                  ("available_for_project", VBool true)]%string with
            | inl e => (ServerError e, d, None)
            | inr u =>
              match insert_user u d with
              | inl e => (ServerError e, d, None)
              | inr (i, d') =>
                  (Redirect "home" ["Welcome to CS Community!"%string], d', Some i)
              end
            end
          end
        end
      end
    end
  end.

(** ** [login] and [register] (app.py)

    [session] is the logged-in user id, if any ([current_user]);
    [form_valid] is [form.validate_on_submit()]; the raw form fields pass
    through [strip_filter] as forms.py declares. *)
Definition login (check_password_hash : pystr -> pystr -> bool) (session : option Z)
    (form_valid : bool) (raw_email raw_password : option pystr) (d : db) : outcome :=
  match session with
  | Some _ => (Redirect "home" [], d, session)
  | None =>
    if negb form_valid then (Render "login.html" [], d, None) else
    let fail := (Render "login.html" ["Incorrect email or password."%string], d, None) in
    match filter_by_first "email" (VStr (or_empty (strip_filter raw_email))) (users d) with
    | inl e => (ServerError e, d, None)
    | inr None => fail
    | inr (Some u) =>
      match check_password check_password_hash u (or_empty raw_password) with
      | inl e => (ServerError e, d, None)
      | inr true => (Redirect "home" ["Welcome back!"%string], d, Some (user_id u))
      | inr false => fail
      end
    end
  end.

(** The fields of a [RegistrationForm] submission. *)
Record registration := mkRegistration {
  reg_username : option pystr;
  reg_email : option pystr;
  reg_password : option pystr;
  reg_track : option pystr;
  reg_skills : option pystr;
  reg_available : bool;
  reg_cv_filename : option pystr;       (* [save_cv] result, if a file was sent *)
  reg_picture_filename : option pystr   (* [save_picture] result, if a file was sent *)
}.

Definition register (generate_password_hash : pystr -> pystr) (session : option Z)
    (form_valid : bool) (f : registration) (d : db) : response * db :=
  match session with
  | Some _ => (Redirect "home" [], d)
  | None =>
    if negb form_valid then (Render "register.html" [], d) else
    let uname := or_empty (strip_filter (reg_username f)) in
    let mail := or_empty (strip_filter (reg_email f)) in
    match find (fun u => pystr_eqb (username u) uname || pystr_eqb (email u) mail) (users d) with
    | Some _ => (Render "register.html" ["Username or email already registered."%string], d)
    | None =>
      let profile_fn := match reg_picture_filename f with
                        | Some fn => fn | None => lit "default_profile.png" end in
      let u := mkUser 0 uname mail
                 (Some (generate_password_hash (or_empty (reg_password f))))
                 (reg_track f) (strip_filter (reg_skills f)) (reg_available f)
                 None None None None (reg_cv_filename f) profile_fn in
      match insert_user u d with
      | inl e => (ServerError e, d)
      | inr (_, d') =>
          (Redirect "login" ["Welcome to CS Community! Your account is ready."%string], d')
      end
    end
  end.

(** ** [edit_post], [delete_post], [edit_comment], [delete_comment] (app.py)

    [form_valid] is [form.validate_on_submit()]; [title_data] and
    [content_data] are the filtered form fields; [image_filename] and
    [video_filename] are the saved uploads, if any. *)
Definition edit_post (current_uid post_id' : Z) (form_valid : bool)
    (title_data content_data image_filename video_filename : option pystr)
    (d : db) : response * db :=
  match posts d !! post_id' with
  | None => (Abort 404, d)
  | Some p =>
    if negb (Z.eqb (post_user_id p) current_uid) then (Abort 403, d) else
    if negb form_valid then (Render "edit_post.html" [], d) else
    let p' := mkPost (post_id p) title_data content_data
                (match image_filename with Some fn => Some fn | None => image_file p end)
                (match video_filename with Some fn => Some fn | None => video_file p end)
                (post_user_id p) (likes_count p) in
    match title_data with
    | None => (ServerError IntegrityError, d)   (* title is NOT NULL *)
    | Some _ => (Redirect "post_detail" ["Post updated."%string],
                 set_posts d (<[post_id' := p']> (posts d)))
    end
  end.

(** [db.session.delete(post)] with the [delete-orphan] cascades to the
    post's comments and likes. *)
Definition delete_post (current_uid post_id' : Z) (d : db) : response * db :=
  match posts d !! post_id' with
  | None => (Abort 404, d)
  | Some p =>
    if negb (Z.eqb (post_user_id p) current_uid) then (Abort 403, d) else
    (Redirect "home" ["Post deleted."%string],
     mkDb (users d) (delete post_id' (posts d))
          (filter (fun kv => comment_post_id kv.2 <> post_id') (comments d))
          (List.filter (fun l => negb (Z.eqb (like_post_id l) post_id')) (likes d)))
  end.

Definition edit_comment (current_uid comment_id' : Z) (form_valid : bool)
    (content_data : option pystr) (d : db) : response * db :=
  match comments d !! comment_id' with
  | None => (Abort 404, d)
  | Some c =>
    if negb (Z.eqb (comment_user_id c) current_uid) then (Abort 403, d) else
    if negb form_valid then (Render "edit_comment.html" [], d) else
    match content_data with
    | None => (ServerError IntegrityError, d)   (* content is NOT NULL *)
    | Some _ =>
        (Redirect "post_detail" ["Comment updated."%string],
         set_comments d (<[comment_id' := mkComment (comment_id c) content_data
                                            (comment_user_id c) (comment_post_id c)]>
                           (comments d)))
    end
  end.

Definition delete_comment (current_uid comment_id' : Z) (d : db) : response * db :=
  match comments d !! comment_id' with
  | None => (Abort 404, d)
  | Some c =>
    if negb (Z.eqb (comment_user_id c) current_uid) then (Abort 403, d) else
    (Redirect "post_detail" ["Comment deleted."%string],
     set_comments d (delete comment_id' (comments d)))
  end.

(** ** [network] (app.py): member discovery

    SQLAlchemy renders [col.ilike(pat)] on SQLite as
    [lower(col) LIKE lower(pat)]; SQLite's [lower] folds the ASCII
    capitals only (as [lower] above does), and LIKE has the wildcards [%]
    (any run) and [_] (one character) and no escape character.  A NULL
    column makes the comparison NULL, which the WHERE clause drops. *)
Fixpoint like_match (pat s : pystr) : bool :=
  match pat with
  | [] => match s with [] => true | _ => false end
  | c :: pr =>
      if c =? 37 then
        (fix go (t : pystr) : bool :=
           like_match pr t || match t with [] => false | _ :: t' => go t' end) s
      else if c =? 95 then
        match s with [] => false | _ :: s' => like_match pr s' end
      else
        match s with [] => false | c' :: s' => (c =? c') && like_match pr s' end
  end.

Definition ilike (col : option pystr) (pat : pystr) : bool :=
  match col with
  | None => false
  | Some v => like_match (lower pat) (lower v)
  end.

(** The WHERE clause built from the stripped query arguments. *)
Definition network_filter (current_uid : Z) (search_q track_filter avail_filter : pystr)
    (u : user) : bool :=
  let pat := lit "%" ++ search_q ++ lit "%" in
  negb (Z.eqb (user_id u) current_uid) &&
  match search_q with
  | [] => true
  | _ => ilike (Some (username u)) pat || ilike (skills u) pat || ilike (track u) pat
  end &&
  match track_filter with
  | [] => true
  | _ => match track u with Some t => pystr_eqb t track_filter | None => false end
  end &&
  (if pystr_eqb avail_filter (lit "yes") then available_for_project u else true).

(** SQLite compares text with BINARY collation: byte order of UTF-8,
    which is code-point order. *)
Fixpoint lex_le (a b : pystr) : bool :=
  match a, b with
  | [], _ => true
  | _ :: _, [] => false
  | x :: a', y :: b' => (x <? y) || ((x =? y) && lex_le a' b')
  end.

(** [ORDER BY available_for_project DESC, username ASC]. *)
Definition user_le (a b : user) : bool :=
  (available_for_project a && negb (available_for_project b)) ||
  (Bool.eqb (available_for_project a) (available_for_project b) &&
   lex_le (username a) (username b)).

Fixpoint insert_user_sorted (u : user) (us : list user) : list user :=
  match us with
  | [] => [u]
  | v :: r => if user_le u v then u :: v :: r else v :: insert_user_sorted u r
  end.

Fixpoint sort_users (us : list user) : list user :=
  match us with
  | [] => []
  | u :: r => insert_user_sorted u (sort_users r)
  end.


(** The [users] list [network] renders, from the raw query arguments. *)
Definition network (current_uid : Z) (raw_search raw_track raw_avail : pystr) (d : db)
    : list user :=
  sort_users (List.filter
    (network_filter current_uid (strip raw_search) (strip raw_track) (strip raw_avail))
    (users d)).

(** ** [profile] (app.py) and [User.has_liked] (models.py) *)

(** [sum((p.likes_count or 0) for p in posts)] over the member's posts. *)
Definition profile_total_likes (uid : Z) (d : db) : Z :=
  map_fold (fun _ p acc =>
    if Z.eqb (post_user_id p) uid then int_or (likes_count p) 0 + acc else acc) 0 (posts d).

(** [any(like.post_id == post.id for like in self.likes)], [self.likes]
    being the member's Like rows. *)
Definition has_liked (uid pid : Z) (d : db) : bool :=
  existsb (fun l => Z.eqb (like_post_id l) pid)
          (List.filter (fun l => Z.eqb (like_user_id l) uid) (likes d)).

(** ** [add_comment] (app.py) *)

Definition fresh_comment_id (cs : gmap Z comment) : Z :=
  map_fold (fun k _ acc => Z.max k acc) 0 cs + 1.

(** [raw_content] is the submitted field; [form_valid] is
    [form.validate_on_submit()]. *)
Definition add_comment (current_uid post_id' : Z) (form_valid : bool)
    (raw_content : option pystr) (d : db) : response * db :=
  match posts d !! post_id' with
  | None => (Abort 404, d)
  | Some p =>
    if negb form_valid
    then (Redirect "post_detail" ["Comment could not be posted."%string], d)
    else let cid := fresh_comment_id (comments d) in
         (Redirect "post_detail" ["Comment posted."%string],
          set_comments d (<[cid := mkComment cid (strip_filter raw_content) current_uid
                                             (post_id p)]> (comments d)))
  end.

(** ** [edit_profile] (app.py) *)

(** The UNIQUE and PRIMARY KEY constraints of the [user] table. *)
Fixpoint users_unique (us : list user) : bool :=
  match us with
  | [] => true
  | u :: r =>
      negb (existsb (fun v => Z.eqb (user_id v) (user_id u) ||
                              pystr_eqb (username v) (username u) ||
                              pystr_eqb (email v) (email u)) r) &&
      users_unique r
  end.

(** The fields of an [EditProfileForm] submission. *)
Record profile_form := mkProfileForm {
  pf_username : option pystr;
  pf_email : option pystr;
  pf_track : option pystr;
  pf_skills : option pystr;
  pf_available : bool;
  pf_github : option pystr;
  pf_portfolio : option pystr;
  pf_linkedin : option pystr;
  pf_phone : option pystr;
  pf_cv_filename : option pystr;        (* [save_cv] result, if a file was sent *)
  pf_picture_filename : option pystr    (* [save_picture] result, if a file was sent *)
}.

(** [x or None] for an optional string. *)
Definition or_none (o : option pystr) : option pystr :=
  match o with Some [] => None | _ => o end.

Definition apply_profile_form (u : user) (f : profile_form) : user :=
  mkUser (user_id u) (or_empty (strip_filter (pf_username f)))
    (or_empty (strip_filter (pf_email f))) (password_hash u) (pf_track f)
    (strip_filter (pf_skills f)) (pf_available f)
    (or_none (strip_filter (pf_github f))) (or_none (strip_filter (pf_portfolio f)))
    (or_none (strip_filter (pf_linkedin f))) (or_none (strip_filter (pf_phone f)))
    (match pf_cv_filename f with Some fn => Some fn | None => cv_file u end)
    (match pf_picture_filename f with Some fn => fn | None => profile_image u end).

(** A POST of a valid form updates [current_user]'s row; the commit
    raises [IntegrityError] if the row clashes with another. *)
Definition edit_profile (current_uid : Z) (form_valid : bool) (f : profile_form) (d : db)
    : response * db :=
  if negb form_valid then (Render "edit_profile.html" [], d) else
  let us' := map (fun u => if Z.eqb (user_id u) current_uid then apply_profile_form u f else u)
                 (users d) in
  if users_unique us'
  then (Redirect "profile" ["Profile updated successfully."%string],
        mkDb us' (posts d) (comments d) (likes d))
  else (ServerError IntegrityError, d).

(** ** Concrete data for the witnesses and counterexamples *)

Definition post1 : post := mkPost 1 (Some (lit "Hi")) (Some (lit "Hi")) None None 7 0.

Definition db0 : db := mkDb [] ∅ ∅ [].

Definition user_ana : user :=
  mkUser 1 (lit "Ana") (lit "ana@example.com") (Some (lit "pbkdf2:sha256$salt$h"))
         None (Some (lit "Python")) true None None None None None (lit "default_profile.png").

Definition db_ana : db := mkDb [user_ana] ∅ ∅ [].

(** An ID token for Ana, who already has a local account. *)
Definition claims_ana : claims :=
  [("sub", lit "1234"); ("email", lit "ana@example.com");
   ("name", lit "Ana Lima"); ("given_name", lit "Ana")]%string.

(** An ID token for a person with no account yet. *)
Definition claims_bea : claims :=
  [("sub", lit "5678"); ("email", lit "bea@example.com");
   ("name", lit "Bea Costa"); ("given_name", lit "Bea")]%string.

Definition dup_msg : string := "Username or email already registered.".

Definition reg_form (uname mail : string) : registration :=
  mkRegistration (Some (lit uname)) (Some (lit mail)) (Some (lit "secret1"))
                 (Some (lit "Other")) (Some (lit "Rocq")) true None None.

Definition fail_msg : string := "Incorrect email or password.".

Definition comment1 : comment := mkComment 1 (Some (lit "Nice")) 7 1.

Definition db_content : db := mkDb [user_ana] {[1 := post1]} {[1 := comment1]} [mkLike 7 1].

Definition user_bea : user :=
  mkUser 2 (lit "bea") (lit "bea@example.com") (Some (lit "pw"))
         None None false None None None None None (lit "default_profile.png").

(** * Proofs *)

(** ** The Like table *)

Lemma like_matches_sym u p l :
  like_matches u p l = same_pair (mkLike u p) l.
Proof. reflexivity. Qed.

Lemma like_matches_refl u p : like_matches u p (mkLike u p) = true.
Proof. unfold like_matches; simpl. rewrite !Z.eqb_refl. done. Qed.

Lemma same_pair_new l u p :
  same_pair l (mkLike u p) = like_matches u p l.
Proof.
  unfold same_pair, like_matches; simpl.
  rewrite (Z.eqb_sym u), (Z.eqb_sym p). reflexivity.
Qed.

Lemma find_none_existsb f (ls : list like) :
  find f ls = None -> existsb f ls = false.
Proof.
  induction ls as [|l r IH]; simpl; [done|].
  destruct (f l); [discriminate | exact IH].
Qed.

Lemma find_some_existsb f (ls : list like) x :
  find f ls = Some x -> existsb f ls = true.
Proof.
  induction ls as [|l r IH]; simpl; [discriminate|].
  destruct (f l); [done | exact IH].
Qed.

Lemma find_snoc f (ls : list like) x :
  find f ls = None -> f x = true -> find f (ls ++ [x]) = Some x.
Proof.
  intros H Hx. induction ls as [|l r IH]; simpl in *.
  - rewrite Hx. done.
  - destruct (f l); [discriminate | exact (IH H)].
Qed.

Lemma remove_first_snoc f (ls : list like) x :
  find f ls = None -> f x = true -> remove_first f (ls ++ [x]) = ls.
Proof.
  intros H Hx. induction ls as [|l r IH]; simpl in *.
  - rewrite Hx. done.
  - destruct (f l); [discriminate | rewrite (IH H); done].
Qed.

Lemma existsb_remove_first g f (ls : list like) :
  existsb g (remove_first f ls) = true -> existsb g ls = true.
Proof.
  induction ls as [|l r IH]; simpl; [done|].
  destruct (f l); simpl.
  - intros H; rewrite H; apply orb_true_r.
  - intros H; apply orb_true_iff in H as [H|H].
    + rewrite H; done.
    + rewrite IH; [apply orb_true_r | exact H].
Qed.

Lemma unique_pairs_remove f (ls : list like) :
  unique_pairs ls = true -> unique_pairs (remove_first f ls) = true.
Proof.
  induction ls as [|l r IH]; simpl; [done|].
  intros H; apply andb_true_iff in H as [Hn Hr].
  destruct (f l); [exact Hr|].
  simpl; apply andb_true_iff; split; [|exact (IH Hr)].
  apply negb_true_iff. apply negb_true_iff in Hn.
  destruct (existsb (same_pair l) (remove_first f r)) eqn:E; [|done].
  apply existsb_remove_first in E. congruence.
Qed.

Lemma unique_pairs_snoc (ls : list like) u p :
  unique_pairs ls = true -> existsb (like_matches u p) ls = false ->
  unique_pairs (ls ++ [mkLike u p]) = true.
Proof.
  induction ls as [|l r IH]; simpl; [done|].
  intros H Hm; apply andb_true_iff in H as [Hn Hr].
  apply orb_false_iff in Hm as [Hl Hm].
  apply andb_true_iff; split; [|exact (IH Hr Hm)].
  rewrite existsb_app; simpl. rewrite same_pair_new, Hl.
  apply negb_true_iff in Hn. rewrite Hn. done.
Qed.

Lemma count_likes_cons pid l ls :
  count_likes pid (l :: ls) = (if Z.eqb (like_post_id l) pid then 1 else 0) + count_likes pid ls.
Proof. unfold count_likes; simpl. destruct (like_post_id l =? pid); simpl; lia. Qed.

Lemma count_likes_nonneg pid ls : 0 <= count_likes pid ls.
Proof. unfold count_likes. lia. Qed.

Lemma count_likes_snoc pid ls u p :
  count_likes pid (ls ++ [mkLike u p]) =
  count_likes pid ls + (if Z.eqb p pid then 1 else 0).
Proof.
  unfold count_likes. rewrite List.filter_app, length_app; simpl.
  destruct (p =? pid); simpl; lia.
Qed.

Lemma count_likes_remove pid ls u p x :
  find (like_matches u p) ls = Some x ->
  count_likes pid (remove_first (like_matches u p) ls) =
  count_likes pid ls - (if Z.eqb p pid then 1 else 0).
Proof.
  induction ls as [|l r IH]; simpl; [discriminate|].
  destruct (like_matches u p l) eqn:E.
  - intros _. rewrite count_likes_cons.
    unfold like_matches in E. apply andb_true_iff in E as [_ E].
    apply Z.eqb_eq in E. rewrite E. lia.
  - intros H. rewrite !count_likes_cons, (IH H). lia.
Qed.

Lemma int_or_0 x : int_or x 0 = x.
Proof. unfold int_or. destruct (Z.eqb_spec x 0); lia. Qed.

(** The two branches of [toggle_like] on an existing post, committed. *)
Lemma toggle_like_unlike u pid d p x :
  posts d !! pid = Some p ->
  find (like_matches u pid) (likes d) = Some x ->
  unique_pairs (likes d) = true ->
  toggle_like u pid d =
  (Redirect "post_detail" ["Like removed."%string],
   mkDb (users d) (<[pid := set_likes_count p (Z.max (int_or (likes_count p) 1 - 1) 0)]> (posts d))
        (comments d) (remove_first (like_matches u pid) (likes d))).
Proof.
  intros Hp Hf Hu. unfold toggle_like. rewrite Hp, Hf.
  rewrite (unique_pairs_remove _ _ Hu). reflexivity.
Qed.

Lemma toggle_like_like u pid d p :
  posts d !! pid = Some p ->
  find (like_matches u pid) (likes d) = None ->
  unique_pairs (likes d) = true ->
  toggle_like u pid d =
  (Redirect "post_detail" ["Post liked!"%string],
   mkDb (users d) (<[pid := set_likes_count p (likes_count p + 1)]> (posts d))
        (comments d) (likes d ++ [mkLike u pid])).
Proof.
  intros Hp Hf Hu. unfold toggle_like. rewrite Hp, Hf.
  rewrite (unique_pairs_snoc _ _ _ Hu (find_none_existsb _ _ Hf)), int_or_0.
  reflexivity.
Qed.

Lemma toggle_like_missing u pid d :
  posts d !! pid = None -> toggle_like u pid d = (Abort 404, d).
Proof. intros Hp. unfold toggle_like. rewrite Hp. reflexivity. Qed.

Lemma toggle_like_inv u pid d :
  like_inv d -> like_inv (snd (toggle_like u pid d)).
Proof.
  intros [Hu Hc].
  destruct (posts d !! pid) as [p|] eqn:Hp;
    [|rewrite toggle_like_missing by done; split; done].
  destruct (find (like_matches u pid) (likes d)) as [x|] eqn:Hf.
  - rewrite (toggle_like_unlike u pid d p x Hp Hf Hu); cbn [snd]. split; cbn -[insert lookup count_likes remove_first unique_pairs].
    + apply unique_pairs_remove, Hu.
    + intros pid' p'. rewrite (count_likes_remove pid' _ _ _ _ Hf).
      rewrite lookup_insert. case_decide as E.
      * subst pid'. intros [= <-]; cbn -[count_likes int_or]. rewrite (Hc pid p Hp).
        rewrite Z.eqb_refl.
        pose proof (count_likes_remove pid _ _ _ _ Hf) as Hr.
        rewrite Z.eqb_refl in Hr.
        pose proof (count_likes_nonneg pid (remove_first (like_matches u pid) (likes d))).
        unfold int_or. destruct (Z.eqb_spec (count_likes pid (likes d)) 0); lia.
      * intros Hp'. rewrite (Hc pid' p' Hp').
        destruct (Z.eqb_spec pid pid'); [congruence | lia].
  - rewrite (toggle_like_like u pid d p Hp Hf Hu); cbn [snd]. split; cbn -[insert lookup count_likes remove_first unique_pairs].
    + apply unique_pairs_snoc; [exact Hu | apply find_none_existsb, Hf].
    + intros pid' p'. rewrite count_likes_snoc, lookup_insert. case_decide as E.
      * subst pid'. intros [= <-]; cbn -[count_likes int_or]. rewrite (Hc pid p Hp), Z.eqb_refl. lia.
      * intros Hp'. rewrite (Hc pid' p' Hp').
        destruct (Z.eqb_spec pid pid'); [congruence | lia].
Qed.

Lemma run_toggles_inv ops d : like_inv d -> like_inv (run_toggles ops d).
Proof.
  revert d; induction ops as [|[u pid] r IH]; intros d H; simpl; [exact H|].
  apply IH, toggle_like_inv, H.
Qed.

Lemma toggle_like_nonneg u pid d :
  counts_nonneg d -> counts_nonneg (snd (toggle_like u pid d)).
Proof.
  intros H. unfold toggle_like.
  destruct (posts d !! pid) as [p|] eqn:Hp; [|exact H].
  pose proof (H _ _ Hp) as H0.
  assert (Hins : forall n ls, 0 <= n -> counts_nonneg
    (mkDb (users d) (<[pid := set_likes_count p n]> (posts d)) (comments d) ls)).
  { intros n ls Hn pid' p'. cbn -[insert lookup]. rewrite lookup_insert.
    case_decide; [intros [= <-]; exact Hn | apply H]. }
  destruct (find (like_matches u pid) (likes d));
    match goal with |- context [if ?b then _ else _] => destruct b end;
    cbn [snd]; try exact H; apply Hins; [lia|]. cbn in H0. rewrite int_or_0. lia.
Qed.

Lemma run_toggles_nonneg ops d : counts_nonneg d -> counts_nonneg (run_toggles ops d).
Proof.
  revert d; induction ops as [|[u pid] r IH]; intros d H; simpl; [exact H|].
  apply IH, toggle_like_nonneg, H.
Qed.

Lemma run_toggles_repeat2 u pid k d :
  run_toggles (repeat (u, pid) (S (S k))) d =
  run_toggles (repeat (u, pid) k) (snd (toggle_like u pid (snd (toggle_like u pid d)))).
Proof. reflexivity. Qed.

(** Liking then unliking from a state without the member's Like. *)
Lemma toggle_like_twice u pid d p :
  posts d !! pid = Some p -> 0 <= likes_count p ->
  liked u pid d = false -> unique_pairs (likes d) = true ->
  toggle_like u pid d =
    (Redirect "post_detail" ["Post liked!"%string],
     mkDb (users d) (<[pid := set_likes_count p (likes_count p + 1)]> (posts d))
          (comments d) (likes d ++ [mkLike u pid])) /\
  toggle_like u pid (snd (toggle_like u pid d)) =
    (Redirect "post_detail" ["Like removed."%string], d).
Proof.
  intros Hp Hn Hl Hu.
  assert (Hf : find (like_matches u pid) (likes d) = None).
  { unfold liked in Hl. destruct (find (like_matches u pid) (likes d)) eqn:E; [|done].
    apply find_some_existsb in E. congruence. }
  rewrite (toggle_like_like u pid d p Hp Hf Hu). split; [done|]. cbn [snd].
  set (d1 := mkDb _ _ _ _).
  assert (Hp1 : posts d1 !! pid = Some (set_likes_count p (likes_count p + 1)))
    by apply lookup_insert_eq.
  assert (Hf1 : find (like_matches u pid) (likes d1) = Some (mkLike u pid)).
  { apply find_snoc; [exact Hf | apply like_matches_refl]. }
  assert (Hu1 : unique_pairs (likes d1) = true)
    by (apply unique_pairs_snoc; [exact Hu | apply find_none_existsb, Hf]).
  rewrite (toggle_like_unlike u pid d1 _ _ Hp1 Hf1 Hu1).
  f_equal. destruct d as [us ps cs ls]; cbn -[insert lookup remove_first] in *.
  f_equal.
  - rewrite insert_insert_eq.
    replace (Z.max (int_or (likes_count p + 1) 1 - 1) 0) with (likes_count p)
      by (unfold int_or; destruct (Z.eqb_spec (likes_count p + 1) 0); lia).
    destruct p; apply insert_id, Hp.
  - apply remove_first_snoc; [exact Hf | apply like_matches_refl].
Qed.

Lemma liked_snoc u pid ls us ps cs :
  liked u pid (mkDb us ps cs (ls ++ [mkLike u pid])) = true.
Proof.
  unfold liked; cbn [likes]. rewrite existsb_app; simpl.
  rewrite like_matches_refl, !orb_true_r. done.
Qed.



Lemma db0_inv : like_inv db0.
Proof. split; [reflexivity | intros i x H; discriminate H]. Qed.

(** ** Claims on [toggle_like] *)

(** C1: starting from a freshly created post (counter 0, no Like on it)
    in a consistent store, after any sequence of [toggle_like] calls by
    any members the counter of every post equals the number of its Like
    rows, and no (member, post) pair has two Like rows. *)
Theorem toggle_like_counter_consistent (d : db) (pid : Z) (p : post) (ops : list (Z * Z)) :
  like_inv d -> likes_count p = 0 -> count_likes pid (likes d) = 0 ->
  like_inv (run_toggles ops (set_posts d (<[pid := p]> (posts d)))).
Proof.
  intros [Hu Hc] H0 Hz. apply run_toggles_inv. split; [exact Hu|].
  intros pid' p'. cbn -[insert lookup count_likes]. rewrite lookup_insert.
  case_decide.
  - subst pid'. intros [= <-]. lia.
  - apply Hc.
Qed.

Lemma toggle_like_counter_consistent_witness :
  like_inv db0 /\ likes_count post1 = 0 /\ count_likes 1 (likes db0) = 0 /\
  like_inv (run_toggles [(7, 1); (8, 1); (7, 1); (9, 1)]
                        (set_posts db0 (<[1 := post1]> (posts db0)))).
Proof.
  split; [exact db0_inv|]. split; [reflexivity|]. split; [reflexivity|].
  apply toggle_like_counter_consistent; [exact db0_inv | reflexivity | reflexivity].
Defined.

(** C2 (amended): from a state in which the member has no Like on the
    post and the counter is non-negative (the unique constraint holding,
    as the database enforces), two [toggle_like] calls first like the post
    and then unlike it, and restore the whole state, counter included;
    from counter 0 without the member's Like, an odd number of toggles
    leaves the Like present and the counter at 1. *)
Theorem toggle_like_twice_restores (d : db) (u pid : Z) (p : post) (n : nat) :
  posts d !! pid = Some p -> 0 <= likes_count p ->
  liked u pid d = false -> unique_pairs (likes d) = true ->
  (fst (toggle_like u pid d) = Redirect "post_detail" ["Post liked!"%string] /\
   liked u pid (snd (toggle_like u pid d)) = true /\
   toggle_like u pid (snd (toggle_like u pid d)) =
     (Redirect "post_detail" ["Like removed."%string], d)) /\
  (likes_count p = 0 ->
   let dn := run_toggles (repeat (u, pid) (2 * n + 1)%nat) d in
   liked u pid dn = true /\
   exists p', posts dn !! pid = Some p' /\ likes_count p' = 1).
Proof.
  intros Hp Hn Hl Hu.
  destruct (toggle_like_twice u pid d p Hp Hn Hl Hu) as [H1 H2].
  split.
  - rewrite H1; cbn [fst snd]. split; [done|]. split; [apply liked_snoc|].
    rewrite H1 in H2. exact H2.
  - intros H0. cbn zeta.
    assert (Hrun : run_toggles (repeat (u, pid) (2 * n + 1)%nat) d =
                   snd (toggle_like u pid d)).
    { induction n as [|k IH]; [reflexivity|].
      replace (2 * S k + 1)%nat with (S (S (2 * k + 1))) by lia.
      rewrite run_toggles_repeat2, H2. exact IH. }
    rewrite Hrun, H1; cbn [snd]. split; [apply liked_snoc|].
    eexists; split; [apply lookup_insert_eq|]. cbn. lia.
Qed.

Lemma toggle_like_twice_restores_witness :
  let d := set_posts db0 {[1 := post1]} in
  (posts d !! 1 = Some post1 /\ 0 <= likes_count post1 /\
   liked 7 1 d = false /\ unique_pairs (likes d) = true) /\
  (fst (toggle_like 7 1 d) = Redirect "post_detail" ["Post liked!"%string] /\
   liked 7 1 (snd (toggle_like 7 1 d)) = true /\
   toggle_like 7 1 (snd (toggle_like 7 1 d)) =
     (Redirect "post_detail" ["Like removed."%string], d)) /\
  (likes_count post1 = 0 ->
   let dn := run_toggles (repeat (7, 1) (2 * 2 + 1)%nat) d in
   liked 7 1 dn = true /\
   exists p', posts dn !! 1 = Some p' /\ likes_count p' = 1).
Proof.
  cbn zeta. split; [split; [reflexivity | split; [simpl; lia | split; reflexivity]]|].
  apply (toggle_like_twice_restores (set_posts db0 {[1 := post1]}) 7 1 post1 2);
    [reflexivity | simpl; lia | reflexivity | reflexivity].
Defined.

(** C3: from any store whose counters are non-negative, every sequence of
    [toggle_like] calls keeps them non-negative; and the decrement branch
    sets the counter to [max((likes_count or 1) - 1, 0)], which is at
    least 0 whatever the prior value, however desynchronized. *)
Theorem toggle_like_count_never_negative :
  (forall ops d, counts_nonneg d -> counts_nonneg (run_toggles ops d)) /\
  (forall u pid d p,
     posts d !! pid = Some p -> liked u pid d = true -> unique_pairs (likes d) = true ->
     exists p', posts (snd (toggle_like u pid d)) !! pid = Some p' /\
                likes_count p' = Z.max (int_or (likes_count p) 1 - 1) 0 /\
                0 <= likes_count p').
Proof.
  split; [exact run_toggles_nonneg|].
  intros u pid d p Hp Hl Hu.
  destruct (find (like_matches u pid) (likes d)) as [x|] eqn:Hf.
  - rewrite (toggle_like_unlike u pid d p x Hp Hf Hu); cbn [snd posts].
    eexists; split; [apply lookup_insert_eq|]. cbn. lia.
  - apply find_none_existsb in Hf. unfold liked in Hl. congruence.
Qed.

Lemma toggle_like_count_never_negative_witness :
  counts_nonneg (run_toggles [(7, 1); (7, 1); (8, 1)] (set_posts db0 {[1 := post1]})) /\
  exists p', posts (snd (toggle_like 7 1 (mkDb [] {[1 := set_likes_count post1 (-3)]} ∅ [mkLike 7 1])))
               !! 1 = Some p' /\
             likes_count p' = Z.max (int_or (-3) 1 - 1) 0 /\ 0 <= likes_count p'.
Proof.
  destruct toggle_like_count_never_negative as [Hs Hc]. split.
  - apply Hs. apply (bool_decide_unpack (counts_nonneg _)). vm_compute. reflexivity.
  - apply (Hc 7 1 _ (set_likes_count post1 (-3))); reflexivity.
Defined.

(** Counterexample to C2 as stated ("from any state"): from a state in
    which member 7 already likes post 1 and the counter reads 0, two
    toggles end with the Like present ("Post liked!"), and the counter at
    1 rather than 0. *)
Lemma toggle_like_twice_from_liked :
  let d := mkDb [] {[1 := post1]} ∅ [mkLike 7 1] in
  let d2 := snd (toggle_like 7 1 (snd (toggle_like 7 1 d))) in
  fst (toggle_like 7 1 (snd (toggle_like 7 1 d))) =
    Redirect "post_detail" ["Post liked!"%string] /\
  liked 7 1 d2 = true /\
  option_map likes_count (posts d !! 1) = Some 0 /\
  option_map likes_count (posts d2 !! 1) = Some 1.
Proof. vm_compute. repeat split. Qed.

(** ** Stripping *)

Lemma lstrip_suffix s : exists pre, s = pre ++ lstrip s.
Proof.
  induction s as [|c r [pre IH]]; simpl; [exists []; done|].
  destruct (py_isspace c); [exists (c :: pre); simpl; f_equal; exact IH | exists []; done].
Qed.

Lemma lstrip_head s x r : lstrip s = x :: r -> py_isspace x = false.
Proof.
  induction s as [|c t IH]; simpl; [discriminate|].
  destruct (py_isspace c) eqn:E; [exact IH | intros [= <- _]; exact E].
Qed.

Lemma lstrip_nil s : lstrip s = [] <-> forallb py_isspace s = true.
Proof.
  induction s as [|c t IH]; simpl; [done|].
  destruct (py_isspace c); simpl; [exact IH | split; discriminate].
Qed.

Lemma rstrip_prefix s : exists suf, s = rstrip s ++ suf.
Proof.
  destruct (lstrip_suffix (rev s)) as [pre H]. exists (rev pre).
  unfold rstrip. rewrite <- rev_app_distr, <- H, rev_involutive. done.
Qed.

Lemma forallb_rev' (f : Z -> bool) l : forallb f (rev l) = forallb f l.
Proof.
  induction l as [|x r IH]; simpl; [done|].
  rewrite forallb_app, IH; simpl. rewrite andb_true_r, andb_comm. done.
Qed.

Lemma rstrip_nil s : rstrip s = [] <-> forallb py_isspace s = true.
Proof.
  unfold rstrip. rewrite <- (forallb_rev' py_isspace s).
  rewrite <- lstrip_nil. split; intros H.
  - apply (f_equal (@rev Z)) in H. rewrite rev_involutive in H. exact H.
  - rewrite H. done.
Qed.

Lemma strip_nil s : strip s = [] <-> forallb py_isspace s = true.
Proof.
  unfold strip. rewrite rstrip_nil. split.
  - intros H. apply lstrip_nil. destruct (lstrip s) as [|x r] eqn:E; [done|].
    apply lstrip_head in E. simpl in H. rewrite E in H. discriminate.
  - intros H. apply lstrip_nil in H. rewrite H. done.
Qed.

Lemma strip_head s x r : strip s = x :: r -> py_isspace x = false.
Proof.
  unfold strip. destruct (lstrip s) as [|y t] eqn:E; [discriminate|].
  destruct (rstrip_prefix (y :: t)) as [suf Hs]. intros H.
  rewrite H in Hs. injection Hs as -> _. exact (lstrip_head _ _ _ E).
Qed.

(** The content stored by [new_post] is the stripped raw content. *)
Lemma stored_content_head raw x r :
  or_empty (strip_filter raw) = x :: r -> py_isspace x = false.
Proof.
  destruct raw as [[|c t]|]; simpl; try discriminate. apply strip_head.
Qed.

Lemma strip_slice_nonempty c :
  c <> [] -> (forall x r, c = x :: r -> py_isspace x = false) ->
  strip (slice_to 80 c) <> [].
Proof.
  destruct c as [|x r]; [done|]. intros _ H. rewrite strip_nil. simpl.
  rewrite (H x r eq_refl). discriminate.
Qed.

Lemma title_data_blank raw :
  strip (or_empty raw) = [] -> strip (or_empty (strip_filter raw)) = [].
Proof.
  destruct raw as [[|c t]|]; simpl; try done. intros H. rewrite H. done.
Qed.

(** ** Claim on [new_post] *)

(** C4: when the supplied title is absent or blank, the stored title is
    derived from the stored content [c] (the stripped form field): if [c]
    is non-empty it is [c[:80].strip()] followed by an ellipsis exactly
    when [c] is longer than 80 code points; if [c] is empty it is the
    literal "Untitled".  The post is stored with counter 0. *)
Theorem new_post_auto_title (uid : Z) (raw_title raw_content img vid : option pystr) (d : db) :
  strip (or_empty raw_title) = [] ->
  let c := or_empty (strip_filter raw_content) in
  exists pid p,
    posts (snd (new_post uid true raw_title raw_content img vid d)) !! pid = Some p /\
    content p = Some c /\ likes_count p = 0 /\
    title p = Some (match c with
                    | [] => lit "Untitled"
                    | _ => strip (slice_to 80 c) ++
                           (if Nat.ltb 80 (length c) then [ellipsis] else [])
                    end).
Proof.
  intros Ht c. exists (fresh_post_id (posts d)).
  eexists; split; [apply lookup_insert_eq|]. cbn [content likes_count title].
  split; [done|]. split; [done|]. f_equal.
  unfold new_post_title. rewrite (title_data_blank _ Ht). fold c.
  destruct c as [|x r] eqn:Ec; [reflexivity|].
  pose proof (strip_slice_nonempty c) as Hne. rewrite Ec in Hne.
  assert (Hs : strip (slice_to 80 (x :: r)) <> []).
  { apply Hne; [discriminate|]. intros y t Hy. rewrite <- Ec in Hy.
    exact (stored_content_head raw_content y t Hy). }
  destruct (strip (slice_to 80 (x :: r))); [done|]. reflexivity.
Qed.

(** Content of 100 letters "a" and no title. *)
Lemma new_post_auto_title_witness :
  strip (or_empty None) = [] /\
  let c := or_empty (strip_filter (Some (repeat 97 100))) in
  exists pid p,
    posts (snd (new_post 7 true None (Some (repeat 97 100)) None None db0)) !! pid = Some p /\
    content p = Some c /\ likes_count p = 0 /\
    title p = Some (match c with
                    | [] => lit "Untitled"
                    | _ => strip (slice_to 80 c) ++
                           (if Nat.ltb 80 (length c) then [ellipsis] else [])
                    end).
Proof. split; [reflexivity|]. apply new_post_auto_title. reflexivity. Defined.

Example new_post_title_100 :
  new_post_title None (Some (repeat 97 100)) = repeat 97 80 ++ [ellipsis].
Proof. vm_compute. reflexivity. Qed.

Example new_post_title_50 :
  new_post_title None (Some (repeat 97 50)) = repeat 97 50.
Proof. vm_compute. reflexivity. Qed.

(** ** External-identity login *)





Lemma google_id_not_mapped : is_user_attribute "google_id" = false.
Proof. reflexivity. Qed.

(** C5 (code_bug): every callback that gets past the token checks with a
    subject id and an email raises at the first lookup,
    [User.query.filter_by(google_id=...)], because [models.User] maps no
    [google_id] column: no Member is found, linked or created, and nobody
    is logged in. *)
Theorem google_callback_lookup_raises (d : db) (ui : claims) (gid : pystr)
    (download : option pystr) (hex6 : pystr) :
  dict_get "sub" ui = Some gid -> gid <> [] -> dict_get_default "email" [] ui <> [] ->
  google_callback true (Some ui) download hex6 d = (ServerError InvalidRequestError, d, None).
Proof.
  intros Hs Hg He. unfold google_callback; cbn [negb]. rewrite Hs.
  destruct gid as [|g gs]; [done|].
  destruct (dict_get_default "email" [] ui) as [|c cs]; [done|].
  unfold filter_by_first. rewrite google_id_not_mapped. reflexivity.
Qed.

(** Ana, who has a local account, signs in with Google: the request fails. *)
Lemma google_callback_lookup_raises_witness :
  (dict_get "sub" claims_ana = Some (lit "1234") /\ lit "1234" <> [] /\
   dict_get_default "email" [] claims_ana <> []) /\
  google_callback true (Some claims_ana) None (lit "a1b2c3") db_ana =
    (ServerError InvalidRequestError, db_ana, None).
Proof.
  split; [split; [reflexivity | split; discriminate]|].
  apply (google_callback_lookup_raises _ _ (lit "1234")); [reflexivity | discriminate | discriminate].
Defined.

(** C6 (code_bug): the new-account branch cannot produce a Member
    without a password hash.  The callback raises at the [google_id]
    lookup; past it, [User(google_id=...)] raises [TypeError]; a [User]
    with no hash is rejected by the NOT NULL constraint on
    [password_hash]; and a Member without a hash would make local login
    raise [AttributeError] instead of failing with the invalid-credentials
    message. *)
Theorem sso_account_without_password (check_password_hash : pystr -> pystr -> bool) :
  google_callback true (Some claims_bea) None (lit "a1b2c3") db_ana =
    (ServerError InvalidRequestError, db_ana, None) /\
  construct_user [("username", VStr (lit "Bea")); ("email", VStr (lit "bea@example.com"));
                  ("google_id", VStr (lit "5678"));
                  ("profile_image", VStr (lit "default_profile.png"));
                  ("available_for_project", VBool true)]%string = inl TypeError /\
  (forall u d, password_hash u = None -> insert_user u d = inl IntegrityError) /\
  login check_password_hash None true (Some (lit "bea@example.com")) (Some (lit "secret"))
    (mkDb [mkUser 2 (lit "Bea") (lit "bea@example.com") None None None true
                  None None None None None (lit "default_profile.png")] ∅ ∅ []) =
    (ServerError AttributeError,
     mkDb [mkUser 2 (lit "Bea") (lit "bea@example.com") None None None true
                  None None None None None (lit "default_profile.png")] ∅ ∅ [], None).
Proof.
  split; [vm_compute; reflexivity|]. split; [vm_compute; reflexivity|].
  split; [intros u d H; unfold insert_user; rewrite H; reflexivity|].
  vm_compute. reflexivity.
Qed.

(** C7 (code_bug): the username given to [User(...)] is the token's
    [given_name] (here "Ana", neither lower-cased nor checked against the
    taken names) rather than the display-name candidate "ana_lima" that
    [_unique_username] checked; and [_unique_username] appends its suffix
    once without checking the result, so a taken suffixed name comes back
    as is.  Neither has a retry or a dedicated failure; a clash reaches the
    UNIQUE constraint as an uncaught [IntegrityError]. *)
Theorem sso_username_not_unique :
  sso_new_username claims_ana (lit "a1b2c3") [] = inr (lit "Ana") /\
  unique_username (slice_to 40 (lower (replace_space (lit "Ana Lima")))) (lit "a1b2c3") [] =
    inr (lit "ana_lima") /\
  sso_new_username claims_ana (lit "a1b2c3") (users db_ana) = inr (username user_ana) /\
  insert_user (mkUser 0 (lit "Ana") (lit "ana.lima@example.com") (Some (lit "h")) None None true
                      None None None None None (lit "default_profile.png")) db_ana =
    inl IntegrityError /\
  unique_username (lit "ana") (lit "a1b2c3")
    [set_user_id (mkUser 0 (lit "ana") (lit "a@x") None None None true None None None None None [])  1;
     set_user_id (mkUser 0 (lit "ana_a1b2c3") (lit "b@x") None None None true None None None None None []) 2] =
    inr (lit "ana_a1b2c3").
Proof. vm_compute. repeat split. Qed.

(** ** Local registration and login *)


Lemma find_some_of_in (f : user -> bool) (us : list user) u :
  In u us -> f u = true -> exists v, find f us = Some v.
Proof.
  intros Hin Hf. destruct (find f us) as [v|] eqn:E; [eauto|].
  rewrite (find_none f us E u Hin) in Hf. discriminate.
Qed.

Lemma register_inserts gen f d r d1 :
  register gen None true f d = (r, d1) ->
  r = Redirect "login" ["Welcome to CS Community! Your account is ready."%string] ->
  exists u, In u (users d1) /\ username u = or_empty (strip_filter (reg_username f)) /\
            email u = or_empty (strip_filter (reg_email f)).
Proof.
  unfold register; cbn [negb].
  destruct (find _ (users d)); [intros [= <- _]; discriminate|].
  unfold insert_user; cbn [password_hash].
  destruct (existsb _ (users d)); [intros [= <- _]; discriminate|].
  intros [= _ <-] _. eexists; split; [cbn [users]; apply in_or_app; right; left; reflexivity|].
  split; reflexivity.
Qed.

(** C8: a registration (not logged in, valid form) whose username or email
    is already a Member's fails with the one combined message, whichever
    field collided, and leaves the database as it was; so after a
    successful registration, a second one with the same email or the same
    username fails. *)
Theorem register_duplicate_identity (gen : pystr -> pystr) :
  (forall d f,
     (exists u, In u (users d) /\
        (username u = or_empty (strip_filter (reg_username f)) \/
         email u = or_empty (strip_filter (reg_email f)))) ->
     register gen None true f d = (Render "register.html" [dup_msg], d)) /\
  (forall d f1 f2 d1,
     register gen None true f1 d =
       (Redirect "login" ["Welcome to CS Community! Your account is ready."%string], d1) ->
     (or_empty (strip_filter (reg_email f2)) = or_empty (strip_filter (reg_email f1)) \/
      or_empty (strip_filter (reg_username f2)) = or_empty (strip_filter (reg_username f1))) ->
     register gen None true f2 d1 = (Render "register.html" [dup_msg], d1)).
Proof.
  assert (Hdup : forall d f,
     (exists u, In u (users d) /\
        (username u = or_empty (strip_filter (reg_username f)) \/
         email u = or_empty (strip_filter (reg_email f)))) ->
     register gen None true f d = (Render "register.html" [dup_msg], d)).
  { intros d f [u [Hin Heq]]. unfold register; cbn [negb].
    edestruct find_some_of_in as [v Hv]; [exact Hin| |rewrite Hv; reflexivity].
    unfold pystr_eqb. destruct Heq as [H|H]; rewrite (bool_decide_eq_true_2 _ H);
      [reflexivity | apply orb_true_r]. }
  split; [exact Hdup|].
  intros d f1 f2 d1 H1 Hsame.
  destruct (register_inserts gen f1 d _ d1 H1 eq_refl) as [u [Hin [Hu He]]].
  apply Hdup. exists u. split; [exact Hin|].
  destruct Hsame as [E|E]; [right; congruence | left; congruence].
Qed.


Lemma register_duplicate_identity_witness :
  register lower None true (reg_form "Ana" "x@example.com") db_ana =
    (Render "register.html" [dup_msg], db_ana) /\
  register lower None true (reg_form "bea" "bea@example.com") db_ana =
    (Redirect "login" ["Welcome to CS Community! Your account is ready."%string],
     snd (register lower None true (reg_form "bea" "bea@example.com") db_ana)) /\
  register lower None true (reg_form "bea2" "bea@example.com")
     (snd (register lower None true (reg_form "bea" "bea@example.com") db_ana)) =
    (Render "register.html" [dup_msg],
     snd (register lower None true (reg_form "bea" "bea@example.com") db_ana)).
Proof.
  destruct (register_duplicate_identity lower) as [H1 H2].
  split; [apply H1; exists user_ana; split; [simpl; left; reflexivity | left; reflexivity]|].
  split; [vm_compute; reflexivity|].
  apply (H2 db_ana (reg_form "bea" "bea@example.com")); [vm_compute; reflexivity | left; reflexivity].
Defined.


(** C10: a login with an email no Member has, and a login with a Member's
    email and a password the hash check rejects, produce the same outcome:
    the login form re-rendered with the same message, the database as it
    was, and no user in the session. *)
Theorem login_failures_indistinguishable (check_password_hash : pystr -> pystr -> bool)
    (d : db) (raw_email1 raw_password1 raw_email2 raw_password2 : option pystr) (u : user) :
  filter_by_first "email" (VStr (or_empty (strip_filter raw_email1))) (users d) = inr None ->
  filter_by_first "email" (VStr (or_empty (strip_filter raw_email2))) (users d) = inr (Some u) ->
  check_password check_password_hash u (or_empty raw_password2) = inr false ->
  login check_password_hash None true raw_email1 raw_password1 d =
    (Render "login.html" [fail_msg], d, None) /\
  login check_password_hash None true raw_email2 raw_password2 d =
    login check_password_hash None true raw_email1 raw_password1 d.
Proof.
  intros H1 H2 H3. unfold login; cbn [negb].
  rewrite H1, H2, H3. split; reflexivity.
Qed.

Lemma login_failures_indistinguishable_witness :
  (filter_by_first "email" (VStr (or_empty (strip_filter (Some (lit "bob@example.com")))))
     (users db_ana) = inr None /\
   filter_by_first "email" (VStr (or_empty (strip_filter (Some (lit " ana@example.com")))))
     (users db_ana) = inr (Some user_ana) /\
   check_password pystr_eqb user_ana (or_empty (Some (lit "wrong"))) = inr false) /\
  login pystr_eqb None true (Some (lit "bob@example.com")) (Some (lit "secret")) db_ana =
    (Render "login.html" [fail_msg], db_ana, None) /\
  login pystr_eqb None true (Some (lit " ana@example.com")) (Some (lit "wrong")) db_ana =
    login pystr_eqb None true (Some (lit "bob@example.com")) (Some (lit "secret")) db_ana.
Proof.
  split; [split; [vm_compute; reflexivity | split; vm_compute; reflexivity]|].
  apply (login_failures_indistinguishable _ _ _ _ _ _ user_ana);
    vm_compute; reflexivity.
Defined.

(** ** Ownership of posts and comments *)

(** C9: an edit or delete of a post or a comment by a member other than
    its author is answered with [abort(403)] and leaves the database,
    the targeted entity included, exactly as it was. *)
Theorem non_author_rejected (d : db) (uid : Z) :
  (forall pid p form_valid title_data content_data image_filename video_filename,
     posts d !! pid = Some p -> post_user_id p <> uid ->
     edit_post uid pid form_valid title_data content_data image_filename video_filename d =
       (Abort 403, d) /\
     delete_post uid pid d = (Abort 403, d)) /\
  (forall cid c form_valid content_data,
     comments d !! cid = Some c -> comment_user_id c <> uid ->
     edit_comment uid cid form_valid content_data d = (Abort 403, d) /\
     delete_comment uid cid d = (Abort 403, d)).
Proof.
  split.
  - intros pid p fv td cd img vid Hp Hne.
    unfold edit_post, delete_post. rewrite Hp.
    destruct (Z.eqb_spec (post_user_id p) uid); [contradiction | split; reflexivity].
  - intros cid c fv cd Hc Hne.
    unfold edit_comment, delete_comment. rewrite Hc.
    destruct (Z.eqb_spec (comment_user_id c) uid); [contradiction | split; reflexivity].
Qed.



Lemma non_author_rejected_witness :
  (posts db_content !! 1 = Some post1 /\ post_user_id post1 <> 8 /\
   comments db_content !! 1 = Some comment1 /\ comment_user_id comment1 <> 8) /\
  (edit_post 8 1 true (Some (lit "Mine")) (Some (lit "x")) None None db_content =
     (Abort 403, db_content) /\ delete_post 8 1 db_content = (Abort 403, db_content)) /\
  (edit_comment 8 1 true (Some (lit "x")) db_content = (Abort 403, db_content) /\
   delete_comment 8 1 db_content = (Abort 403, db_content)).
Proof.
  split; [split; [reflexivity | split; [simpl; lia | split; [reflexivity | simpl; lia]]]|].
  destruct (non_author_rejected db_content 8) as [Hp Hc]. split.
  - apply (Hp 1 post1); [reflexivity | simpl; lia].
  - apply (Hc 1 comment1); [reflexivity | simpl; lia].
Defined.

(** * Further properties of the code *)

(** ** Likes *)

Lemma remove_first_split f (ls : list like) x :
  find f ls = Some x ->
  exists a b, ls = a ++ x :: b /\ remove_first f ls = a ++ b /\ existsb f a = false /\ f x = true.
Proof.
  induction ls as [|l r IH]; simpl; [discriminate|].
  destruct (f l) eqn:E.
  - intros [= <-]. exists [], r. done.
  - intros H. destruct (IH H) as (a & b & -> & -> & Ha & Hx).
    exists (l :: a), b. simpl. rewrite E, Ha. done.
Qed.

Lemma unique_pairs_mid a x b :
  unique_pairs (a ++ x :: b) = true -> existsb (same_pair x) b = false.
Proof.
  induction a as [|l r IH]; simpl.
  - intros H. apply andb_true_iff in H as [H _]. apply negb_true_iff, H.
  - intros H. apply andb_true_iff in H as [_ H]. exact (IH H).
Qed.

Lemma like_matches_pair u p x l :
  like_matches u p x = true -> same_pair x l = like_matches u p l.
Proof.
  unfold like_matches, same_pair. intros H. apply andb_true_iff in H as [H1 H2].
  apply Z.eqb_eq in H1, H2. rewrite H1, H2. reflexivity.
Qed.

Lemma like_matches_other u p u' p' x :
  like_matches u p x = true -> (u' <> u \/ p' <> p) -> like_matches u' p' x = false.
Proof.
  unfold like_matches. intros H Hne. apply andb_true_iff in H as [H1 H2].
  apply Z.eqb_eq in H1, H2. rewrite H1, H2.
  destruct (Z.eqb_spec u u'), (Z.eqb_spec p p'); simpl; try done; lia.
Qed.

(** X1: on an existing post, and with the unique constraint holding,
    [toggle_like] flips whether the member likes the post, and changes
    neither any other (member, post) Like nor any other post. *)
Theorem toggle_like_flips (u pid : Z) (d : db) (p : post) :
  posts d !! pid = Some p -> unique_pairs (likes d) = true ->
  liked u pid (snd (toggle_like u pid d)) = negb (liked u pid d) /\
  (forall u' pid', (u' <> u \/ pid' <> pid) ->
     liked u' pid' (snd (toggle_like u pid d)) = liked u' pid' d) /\
  (forall pid', pid' <> pid -> posts (snd (toggle_like u pid d)) !! pid' = posts d !! pid').
Proof.
  intros Hp Hu. unfold liked.
  destruct (find (like_matches u pid) (likes d)) as [x|] eqn:Hf.
  - rewrite (toggle_like_unlike u pid d p x Hp Hf Hu); cbn -[insert lookup remove_first].
    destruct (remove_first_split _ _ _ Hf) as (a & b & Hls & Hr & Ha & Hx).
    rewrite Hr, Hls, !existsb_app; cbn -[like_matches].
    rewrite Hls in Hu. pose proof (unique_pairs_mid _ _ _ Hu) as Hb.
    split; [|split].
    + rewrite Ha, Hx. simpl.
      rewrite <- Hb. clear -Hx. induction b as [|l b IH]; simpl; [done|].
      rewrite IH, (like_matches_pair _ _ _ l Hx). reflexivity.
    + intros u' pid' Hne. rewrite !existsb_app. cbn -[like_matches].
      rewrite (like_matches_other _ _ _ _ _ Hx Hne). reflexivity.
    + intros pid' Hne. apply lookup_insert_ne. congruence.
  - rewrite (toggle_like_like u pid d p Hp Hf Hu); cbn -[insert lookup].
    rewrite !existsb_app; simpl. rewrite (find_none_existsb _ _ Hf).
    split; [|split].
    + rewrite like_matches_refl. reflexivity.
    + intros u' pid' Hne. rewrite !existsb_app. cbn -[like_matches].
      rewrite (like_matches_other u pid u' pid' _ (like_matches_refl u pid) Hne).
      rewrite orb_false_r. reflexivity.
    + intros pid' Hne. apply lookup_insert_ne. congruence.
Qed.

Lemma toggle_like_flips_witness :
  (posts (set_posts db0 {[1 := post1]}) !! 1 = Some post1 /\
   unique_pairs (likes (set_posts db0 {[1 := post1]})) = true) /\
  liked 7 1 (snd (toggle_like 7 1 (set_posts db0 {[1 := post1]}))) =
    negb (liked 7 1 (set_posts db0 {[1 := post1]})) /\
  (forall u' pid', (u' <> 7 \/ pid' <> 1) ->
     liked u' pid' (snd (toggle_like 7 1 (set_posts db0 {[1 := post1]}))) =
     liked u' pid' (set_posts db0 {[1 := post1]})) /\
  (forall pid', pid' <> 1 ->
     posts (snd (toggle_like 7 1 (set_posts db0 {[1 := post1]}))) !! pid' =
     posts (set_posts db0 {[1 := post1]}) !! pid').
Proof.
  split; [split; reflexivity|].
  apply (toggle_like_flips 7 1 _ post1); reflexivity.
Defined.

(** X2: from any store whose counters agree with the Like table and whose
    Like rows are unique per (member, post), every sequence of
    [toggle_like] calls keeps both properties. *)
Theorem toggle_like_preserves_consistency (ops : list (Z * Z)) (d : db) :
  like_inv d -> like_inv (run_toggles ops d).
Proof. apply run_toggles_inv. Qed.

Lemma toggle_like_preserves_consistency_witness :
  like_inv (set_posts db0 {[1 := post1]}) /\
  like_inv (run_toggles [(7, 1); (8, 1); (7, 1)] (set_posts db0 {[1 := post1]})).
Proof.
  assert (H : like_inv (set_posts db0 {[1 := post1]}))
    by (apply (bool_decide_unpack (like_inv _)); vm_compute; exact I).
  split; [exact H | apply toggle_like_preserves_consistency, H].
Defined.

(** ** Deleting and editing posts and comments *)

Lemma existsb_filter_true (g f : like -> bool) ls :
  existsb g (List.filter f ls) = true -> existsb g ls = true.
Proof.
  induction ls as [|l r IH]; simpl; [done|].
  destruct (f l); simpl.
  - intros H. apply orb_true_iff in H as [H|H]; rewrite ?H; [done|].
    rewrite (IH H), orb_true_r. done.
  - intros H. rewrite (IH H), orb_true_r. done.
Qed.

Lemma unique_pairs_filter f ls :
  unique_pairs ls = true -> unique_pairs (List.filter f ls) = true.
Proof.
  induction ls as [|l r IH]; simpl; [done|].
  intros H. apply andb_true_iff in H as [H1 H2].
  destruct (f l); simpl; [|exact (IH H2)].
  rewrite (IH H2), andb_true_r. apply negb_true_iff.
  destruct (existsb (same_pair l) (List.filter f r)) eqn:E; [|done].
  apply existsb_filter_true in E. apply negb_true_iff in H1. congruence.
Qed.

Lemma count_likes_filter_other pid pid' ls :
  pid' <> pid ->
  count_likes pid' (List.filter (fun l => negb (Z.eqb (like_post_id l) pid)) ls) =
  count_likes pid' ls.
Proof.
  intros Hne. induction ls as [|l r IH]; [reflexivity|]. simpl.
  destruct (Z.eqb_spec (like_post_id l) pid) as [E|E]; simpl.
  - rewrite count_likes_cons, E, (proj2 (Z.eqb_neq pid pid')) by congruence. lia.
  - rewrite !count_likes_cons, IH. reflexivity.
Qed.

(** X3: when the author deletes an existing post, the post is gone,
    exactly the comments and Like rows of that post are deleted with it,
    the members are untouched, and a consistent store stays consistent. *)
Theorem delete_post_cascade (uid pid : Z) (d : db) (p : post) :
  posts d !! pid = Some p -> post_user_id p = uid ->
  let d' := snd (delete_post uid pid d) in
  posts d' = delete pid (posts d) /\
  (forall cid c, comments d' !! cid = Some c <->
                 comments d !! cid = Some c /\ comment_post_id c <> pid) /\
  (forall l, In l (likes d') <-> In l (likes d) /\ like_post_id l <> pid) /\
  users d' = users d /\
  (like_inv d -> like_inv d').
Proof.
  intros Hp Hu d'. subst d'. unfold delete_post. rewrite Hp, Hu, Z.eqb_refl. simpl.
  split; [reflexivity|]. split; [|split; [|split; [reflexivity|]]].
  - intros cid c. rewrite map_lookup_filter_Some. simpl. tauto.
  - intros l. rewrite filter_In, negb_true_iff, Z.eqb_neq. reflexivity.
  - intros [Hup Hc]. split; [apply unique_pairs_filter, Hup|].
    intros k q Hk. cbn [posts] in Hk. apply lookup_delete_Some in Hk as [Hne Hk]. simpl.
    rewrite count_likes_filter_other by congruence. exact (Hc k q Hk).
Qed.

Lemma delete_post_cascade_witness :
  (posts db_content !! 1 = Some post1 /\ post_user_id post1 = 7) /\
  let d' := snd (delete_post 7 1 db_content) in
  posts d' = delete 1 (posts db_content) /\
  (forall cid c, comments d' !! cid = Some c <->
                 comments db_content !! cid = Some c /\ comment_post_id c <> 1) /\
  (forall l, In l (likes d') <-> In l (likes db_content) /\ like_post_id l <> 1) /\
  users d' = users db_content /\
  (like_inv db_content -> like_inv d').
Proof.
  split; [split; reflexivity|].
  apply (delete_post_cascade 7 1 db_content post1); reflexivity.
Defined.

(** X4: when the author submits a valid edit with a title, only that post
    changes: it keeps its author and its like counter, takes the new
    title and content, keeps its image and video unless new ones are
    uploaded; comments, Like rows and members are untouched, and a
    consistent store stays consistent. *)
Theorem edit_post_author_update (uid pid : Z) (d : db) (p : post)
    (t : pystr) (c img vid : option pystr) :
  posts d !! pid = Some p -> post_user_id p = uid ->
  let d' := snd (edit_post uid pid true (Some t) c img vid d) in
  (forall pid', pid' <> pid -> posts d' !! pid' = posts d !! pid') /\
  (exists q, posts d' !! pid = Some q /\
     post_user_id q = post_user_id p /\ likes_count q = likes_count p /\
     title q = Some t /\ content q = c /\
     image_file q = (match img with Some fn => Some fn | None => image_file p end) /\
     video_file q = (match vid with Some fn => Some fn | None => video_file p end)) /\
  users d' = users d /\ comments d' = comments d /\ likes d' = likes d /\
  (like_inv d -> like_inv d').
Proof.
  intros Hp Hu d'. subst d'. unfold edit_post. rewrite Hp, Hu, Z.eqb_refl.
  cbn -[insert lookup].
  split; [intros pid' Hne; apply lookup_insert_ne; congruence|].
  split; [eexists; split; [apply lookup_insert_eq|]; simpl; tauto|].
  split; [reflexivity|]. split; [reflexivity|]. split; [reflexivity|].
  intros [Hup Hc]. split; [exact Hup|]. cbn -[insert lookup].
  apply map_Forall_insert_2; [simpl; exact (Hc pid p Hp) | exact Hc].
Qed.

Lemma edit_post_author_update_witness :
  (posts db_content !! 1 = Some post1 /\ post_user_id post1 = 7) /\
  let d' := snd (edit_post 7 1 true (Some (lit "New")) (Some (lit "Body")) None None db_content) in
  (forall pid', pid' <> 1 -> posts d' !! pid' = posts db_content !! pid') /\
  (exists q, posts d' !! 1 = Some q /\
     post_user_id q = post_user_id post1 /\ likes_count q = likes_count post1 /\
     title q = Some (lit "New") /\ content q = Some (lit "Body") /\
     image_file q = image_file post1 /\ video_file q = video_file post1) /\
  users d' = users db_content /\ comments d' = comments db_content /\
  likes d' = likes db_content /\ (like_inv db_content -> like_inv d').
Proof.
  split; [split; reflexivity|].
  apply (edit_post_author_update 7 1 db_content post1 (lit "New") (Some (lit "Body")) None None);
    reflexivity.
Defined.



(** ** Comments *)

Lemma max_key_bound {A} (m : gmap Z A) k x :
  m !! k = Some x -> k <= map_fold (fun k _ acc => Z.max k acc) 0 m.
Proof.
  revert k x.
  refine (map_fold_weak_ind (fun r m => forall k x, m !! k = Some x -> k <= r)
            (fun k _ acc => Z.max k acc) 0 _ _ m).
  - intros k x H. rewrite lookup_empty in H. discriminate.
  - intros i y m' r _ IH k x H. apply lookup_insert_Some in H as [[-> _]|[_ H]].
    + lia.
    + specialize (IH k x H). lia.
Qed.

Lemma fresh_comment_id_fresh cs : cs !! fresh_comment_id cs = None.
Proof.
  destruct (cs !! fresh_comment_id cs) as [c|] eqn:E; [|reflexivity].
  apply max_key_bound in E. unfold fresh_comment_id in E. lia.
Qed.

(** X6: on an existing post, a valid comment form adds exactly one new
    comment, under an id no comment had, holding the filtered content,
    the member and the post, and keeps every other comment, post and Like
    row; an invalid form only flashes a warning and changes nothing. *)
Theorem add_comment_adds_one (uid pid : Z) (d : db) (p : post) (raw : option pystr) :
  posts d !! pid = Some p ->
  add_comment uid pid false raw d =
    (Redirect "post_detail" ["Comment could not be posted."%string], d) /\
  let '(r, d') := add_comment uid pid true raw d in
  r = Redirect "post_detail" ["Comment posted."%string] /\
  exists cid, comments d !! cid = None /\
    comments d' !! cid = Some (mkComment cid (strip_filter raw) uid (post_id p)) /\
    (forall cid', cid' <> cid -> comments d' !! cid' = comments d !! cid') /\
    posts d' = posts d /\ likes d' = likes d /\ users d' = users d.
Proof.
  intros Hp. unfold add_comment. rewrite Hp. split; [reflexivity|].
  split; [reflexivity|]. exists (fresh_comment_id (comments d)).
  split; [apply fresh_comment_id_fresh|]. cbn -[insert lookup].
  split; [apply lookup_insert_eq|].
  split; [intros cid' Hne; apply lookup_insert_ne; congruence|]. done.
Qed.

Lemma add_comment_adds_one_witness :
  posts db_content !! 1 = Some post1 /\
  add_comment 8 1 false (Some (lit " Great ")) db_content =
    (Redirect "post_detail" ["Comment could not be posted."%string], db_content) /\
  let '(r, d') := add_comment 8 1 true (Some (lit " Great ")) db_content in
  r = Redirect "post_detail" ["Comment posted."%string] /\
  exists cid, comments db_content !! cid = None /\
    comments d' !! cid = Some (mkComment cid (strip_filter (Some (lit " Great "))) 8 (post_id post1)) /\
    (forall cid', cid' <> cid -> comments d' !! cid' = comments db_content !! cid') /\
    posts d' = posts db_content /\ likes d' = likes db_content /\ users d' = users db_content.
Proof.
  split; [reflexivity|].
  apply (add_comment_adds_one 8 1 db_content post1); reflexivity.
Defined.



(** X8: [User.has_liked] (a scan of the member's own Like rows) agrees
    with the [liked] flag [post_detail] computes by querying the Like
    table for the (member, post) pair, on every store. *)
Theorem has_liked_agrees_with_post_detail (uid pid : Z) (d : db) :
  has_liked uid pid d = liked uid pid d.
Proof.
  unfold has_liked, liked, like_matches. induction (likes d) as [|l r IH]; [reflexivity|].
  simpl. destruct (like_user_id l =? uid); simpl; rewrite IH; reflexivity.
Qed.

(** ** Member discovery *)










Lemma like_match_pct pr s : like_match pr s = true -> like_match (37 :: pr) s = true.
Proof. intros H. destruct s; simpl; rewrite H; reflexivity. Qed.

Lemma like_match_pct_any s : like_match [37] s = true.
Proof.
  induction s as [|c s IH]; [reflexivity|]. simpl in *. exact IH.
Qed.

Lemma filter_ext_users (f g : user -> bool) l :
  (forall u, f u = g u) -> List.filter f l = List.filter g l.
Proof. intros H. induction l as [|u r IH]; simpl; [done|]. rewrite H, IH. reflexivity. Qed.

(** X11: the search text is pasted into a LIKE pattern unescaped, so
    [%] is a wildcard: searching for "%" lists the same members as an
    empty search. *)
Theorem network_percent_search_matches_all (cu : Z) (t a : pystr) (d : db) :
  network cu (lit "%") t a d = network cu [] t a d.
Proof.
  unfold network. f_equal. apply filter_ext_users. intros u.
  unfold network_filter. change (strip (lit "%")) with [37]. change (strip []) with (@nil Z).
  unfold ilike. change (lower (lit "%" ++ [37] ++ lit "%")) with [37; 37; 37].
  rewrite (like_match_pct _ _ (like_match_pct _ _ (like_match_pct_any _))). reflexivity.
Qed.

Lemma py_isspace_range c : py_isspace c = true -> c <= 32 \/ 133 <= c.
Proof.
  unfold py_isspace. intros H.
  repeat (apply orb_true_iff in H as [H|H]);
    first [apply andb_true_iff in H as [H1 H2]; apply Z.leb_le in H1, H2; lia
          | apply Z.eqb_eq in H; lia].
Qed.

Lemma py_isspace_lower_char c :
  py_isspace (if (65 <=? c) && (c <=? 90) then c + 32 else c) = py_isspace c.
Proof.
  destruct ((65 <=? c) && (c <=? 90)) eqn:E; [|reflexivity].
  apply andb_true_iff in E as [E1 E2]. apply Z.leb_le in E1, E2.
  destruct (py_isspace (c + 32)) eqn:H1; [apply py_isspace_range in H1; lia|].
  destruct (py_isspace c) eqn:H2; [apply py_isspace_range in H2; lia|]. reflexivity.
Qed.

Lemma lstrip_lower s : lstrip (lower s) = lower (lstrip s).
Proof.
  induction s as [|c r IH]; [reflexivity|]. unfold lower in *. simpl.
  rewrite py_isspace_lower_char. destruct (py_isspace c); [exact IH | reflexivity].
Qed.

Lemma lower_rev x : lower (rev x) = rev (lower x).
Proof. apply map_rev. Qed.

Lemma strip_lower s : strip (lower s) = lower (strip s).
Proof.
  unfold strip, rstrip. rewrite lstrip_lower, <- lower_rev, lstrip_lower, lower_rev.
  reflexivity.
Qed.

Lemma network_filter_lower cu q1 q2 t a u :
  lower q1 = lower q2 -> network_filter cu q1 t a u = network_filter cu q2 t a u.
Proof.
  intros H. unfold network_filter, ilike.
  assert (Hp : lower (lit "%" ++ q1 ++ lit "%") = lower (lit "%" ++ q2 ++ lit "%")).
  { unfold lower in *. rewrite !map_app, H. reflexivity. }
  rewrite Hp.
  destruct q1, q2; try reflexivity; discriminate H.
Qed.

(** X12: the member search is case-insensitive for ASCII letters: two
    searches that differ only in the case of ASCII letters list the same
    members in the same order. *)
Theorem network_search_case_insensitive (cu : Z) (s1 s2 t a : pystr) (d : db) :
  lower s1 = lower s2 -> network cu s1 t a d = network cu s2 t a d.
Proof.
  intros H. unfold network. f_equal. apply filter_ext_users. intros u.
  apply network_filter_lower. rewrite <- !strip_lower, H. reflexivity.
Qed.

Lemma network_search_case_insensitive_witness :
  lower (lit "PyThon") = lower (lit "python") /\
  network 7 (lit "PyThon") [] [] db_ana = network 7 (lit "python") [] [] db_ana.
Proof.
  split; [reflexivity|]. apply network_search_case_insensitive. reflexivity.
Defined.

(** ** Registration and sign-in *)




Lemma pystr_eqb_neq a b : a <> b -> pystr_eqb a b = false.
Proof. intros H. unfold pystr_eqb. apply bool_decide_eq_false_2, H. Qed.



Lemma next_user_id_fresh_aux us a :
  a <= fold_left (fun acc u => Z.max acc (user_id u)) us a /\
  (forall v, In v us -> user_id v <= fold_left (fun acc u => Z.max acc (user_id u)) us a).
Proof.
  revert a. induction us as [|w r IH]; intros a; simpl; [split; [lia | done]|].
  destruct (IH (Z.max a (user_id w))) as [H1 H2]. split; [lia|].
  intros v [<-|Hin]; [lia | apply H2, Hin].
Qed.

Lemma next_user_id_fresh us v : In v us -> user_id v < next_user_id us.
Proof.
  intros Hin. unfold next_user_id.
  pose proof (proj2 (next_user_id_fresh_aux us 0) v Hin). lia.
Qed.

Lemma users_unique_snoc l x :
  users_unique l = true ->
  Forall (fun v => user_id v <> user_id x /\ username v <> username x /\ email v <> email x) l ->
  users_unique (l ++ [x]) = true.
Proof.
  induction l as [|v r IH]; intros Hu Hf; [reflexivity|].
  simpl in Hu |- *. apply andb_true_iff in Hu as [Hv Hu].
  inversion Hf as [|? ? [Hi [Hn He]] Hr]; subst.
  rewrite (IH Hu Hr), andb_true_r, existsb_app. simpl.
  rewrite (proj2 (Z.eqb_neq _ _)) by congruence.
  rewrite !pystr_eqb_neq by congruence. simpl. rewrite orb_false_r. exact Hv.
Qed.

Lemma existsb_false_forall {A} (f : A -> bool) l x :
  existsb f l = false -> In x l -> f x = false.
Proof.
  intros H Hin. destruct (f x) eqn:E; [|reflexivity].
  assert (existsb f l = true) by (apply existsb_exists; eauto). congruence.
Qed.

(** X14: registration keeps members' ids, usernames and emails pairwise
    distinct: from a table where they are, whatever the form holds, the
    table after [register] still has them distinct. *)
Theorem register_keeps_identities_unique (gen : pystr -> pystr) (f : registration) (d : db) :
  users_unique (users d) = true ->
  users_unique (users (snd (register gen None true f d))) = true.
Proof.
  intros Hu. unfold register; cbn [negb].
  destruct (find _ (users d)); [exact Hu|].
  unfold insert_user; cbn [password_hash username email].
  destruct (existsb _ (users d)) eqn:E; [exact Hu|]. cbn [snd users].
  apply users_unique_snoc; [exact Hu|]. apply List.Forall_forall. intros v Hin.
  pose proof (existsb_false_forall _ _ _ E Hin) as Hv. cbn beta in Hv.
  apply orb_false_iff in Hv as [Hn He]. unfold pystr_eqb in Hn, He.
  apply bool_decide_eq_false_1 in Hn, He. cbn.
  split; [pose proof (next_user_id_fresh _ _ Hin); lia|]. split; assumption.
Qed.

Lemma register_keeps_identities_unique_witness :
  let f := mkRegistration (Some (lit "bea")) (Some (lit "bea@example.com"))
             (Some (lit "secret1")) (Some (lit "Other")) (Some (lit "C")) true None None in
  users_unique (users db_ana) = true /\
  users_unique (users (snd (register (fun pw => pw) None true f db_ana))) = true.
Proof.
  intros f. split; [reflexivity|]. apply register_keeps_identities_unique. reflexivity.
Defined.

Lemma users_unique_no_clash l a b :
  users_unique l = true -> In a l -> In b l -> user_id a <> user_id b ->
  username a <> username b /\ email a <> email b.
Proof.
  induction l as [|x r IH]; [done|]. simpl. intros Hu Ha Hb Hne.
  apply andb_true_iff in Hu as [Hx Hu]. apply negb_true_iff in Hx.
  destruct Ha as [<-|Ha], Hb as [<-|Hb]; [done| | |exact (IH Hu Ha Hb Hne)].
  - pose proof (existsb_false_forall _ _ _ Hx Hb) as H. cbn beta in H.
    apply orb_false_iff in H as [H He]. apply orb_false_iff in H as [_ Hn].
    unfold pystr_eqb in Hn, He. apply bool_decide_eq_false_1 in Hn, He. split; congruence.
  - pose proof (existsb_false_forall _ _ _ Hx Ha) as H. cbn beta in H.
    apply orb_false_iff in H as [H He]. apply orb_false_iff in H as [_ Hn].
    unfold pystr_eqb in Hn, He. apply bool_decide_eq_false_1 in Hn, He. split; assumption.
Qed.

Lemma in_map_edit cu f us u :
  In u us -> In (if Z.eqb (user_id u) cu then apply_profile_form u f else u)
    (map (fun u => if Z.eqb (user_id u) cu then apply_profile_form u f else u) us).
Proof. intros Hin. apply (in_map (fun u => if Z.eqb (user_id u) cu then apply_profile_form u f else u)), Hin. Qed.

(** X15: the profile form does not check that the new username or email
    is free: when the signed-in member submits the username or the email
    of another member, the commit violates a UNIQUE constraint, the
    request fails with [IntegrityError] and the store is unchanged. *)
Theorem edit_profile_taken_identity (cu : Z) (f : profile_form) (d : db) (u v : user) :
  In u (users d) -> user_id u = cu -> In v (users d) -> user_id v <> cu ->
  (username v = or_empty (strip_filter (pf_username f)) \/
   email v = or_empty (strip_filter (pf_email f))) ->
  edit_profile cu true f d = (ServerError IntegrityError, d).
Proof.
  intros Hu Hcu Hv Hvcu Hclash. unfold edit_profile; cbn [negb].
  destruct (users_unique _) eqn:E; [|reflexivity]. exfalso.
  pose proof (in_map_edit cu f _ _ Hu) as Hu'. pose proof (in_map_edit cu f _ _ Hv) as Hv'.
  rewrite Hcu, Z.eqb_refl in Hu'. rewrite (proj2 (Z.eqb_neq _ _) Hvcu) in Hv'.
  destruct (users_unique_no_clash _ _ _ E Hu' Hv') as [Hn He]; [cbn; congruence|].
  cbn in Hn, He. destruct Hclash; congruence.
Qed.

Lemma edit_profile_taken_identity_witness :
  let f := mkProfileForm (Some (lit "Ana")) (Some (lit "bea@example.com")) None None true
             None None None None None None in
  let d := mkDb [user_ana; user_bea] ∅ ∅ [] in
  (In user_bea (users d) /\ user_id user_bea = 2 /\ In user_ana (users d) /\ user_id user_ana <> 2 /\
   (username user_ana = or_empty (strip_filter (pf_username f)) \/
    email user_ana = or_empty (strip_filter (pf_email f)))) /\
  edit_profile 2 true f d = (ServerError IntegrityError, d).
Proof.
  intros f d. split.
  - split; [right; left; reflexivity|]. split; [reflexivity|].
    split; [left; reflexivity|]. split; [discriminate|]. left; reflexivity.
  - apply (edit_profile_taken_identity 2 f d user_bea user_ana);
      [right; left; reflexivity | reflexivity | left; reflexivity | discriminate | left; reflexivity].
Defined.




(** ** The profile page *)

Lemma filter_len_split (i : Z) (b : bool) (g : like -> bool) ls :
  (forall l, like_post_id l = i -> g l = false) ->
  length (List.filter (fun l => if Z.eqb (like_post_id l) i then b else g l) ls) =
  ((if b then length (List.filter (fun l => Z.eqb (like_post_id l) i) ls) else 0) +
   length (List.filter g ls))%nat.
Proof.
  intros Hg. induction ls as [|l r IH]; simpl; [destruct b; reflexivity|].
  destruct (Z.eqb_spec (like_post_id l) i) as [E|E].
  - rewrite (Hg l E). destruct b; simpl; rewrite IH; lia.
  - destruct (g l); simpl; rewrite IH; destruct b; lia.
Qed.

Lemma filter_len_false (g : like -> bool) ls :
  (forall l, g l = false) -> length (List.filter g ls) = 0%nat.
Proof. intros Hg. induction ls as [|l r IH]; simpl; [done|]. rewrite Hg. exact IH. Qed.

(** X17: with the like counters consistent with the Like table, the
    "total likes" a profile shows is the number of Like rows on the
    member's posts. *)
Theorem profile_total_likes_counts_rows (uid : Z) (d : db) :
  like_inv d ->
  profile_total_likes uid d =
  Z.of_nat (length (List.filter (fun l =>
    match posts d !! like_post_id l with
    | Some p => Z.eqb (post_user_id p) uid
    | None => false
    end) (likes d))).
Proof.
  intros [_ Hc]. unfold profile_total_likes. revert Hc.
  generalize (likes d) as ls. intros ls. generalize (posts d) as m. intros m.
  refine (map_fold_weak_ind (fun r m =>
            map_Forall (fun pid p => likes_count p = count_likes pid ls) m ->
            r = Z.of_nat (length (List.filter (fun l =>
                  match m !! like_post_id l with
                  | Some p => Z.eqb (post_user_id p) uid
                  | None => false
                  end) ls)))
            _ 0 _ _ m).
  - intros _. rewrite filter_len_false; [reflexivity|]. intros l. rewrite lookup_empty. reflexivity.
  - intros i x m' r Hi IH Hall. apply map_Forall_insert in Hall as [Hx Hall]; [|exact Hi].
    rewrite (IH Hall). cbn beta in Hx.
    rewrite (List.filter_ext (fun l => match <[i:=x]> m' !! like_post_id l with
                                      | Some p => Z.eqb (post_user_id p) uid
                                      | None => false end) (fun l => if Z.eqb (like_post_id l) i then Z.eqb (post_user_id x) uid
                                     else match m' !! like_post_id l with
                                          | Some p => Z.eqb (post_user_id p) uid
                                          | None => false end)).
    2:{ intros l. rewrite lookup_insert. case_decide as Hd.
        - subst. rewrite Z.eqb_refl. reflexivity.
        - rewrite (proj2 (Z.eqb_neq _ _)) by congruence. reflexivity. }
    rewrite filter_len_split by (intros l Hl; rewrite Hl, Hi; reflexivity).
    rewrite int_or_0, Hx. unfold count_likes.
    destruct (post_user_id x =? uid); lia.
Qed.

Lemma profile_total_likes_counts_rows_witness :
  let d := mkDb [user_ana] {[1 := set_likes_count post1 1; 2 := set_likes_count post1 0]}
                ∅ [mkLike 8 1] in
  like_inv d /\
  profile_total_likes 7 d =
  Z.of_nat (length (List.filter (fun l =>
    match posts d !! like_post_id l with
    | Some p => Z.eqb (post_user_id p) 7
    | None => false
    end) (likes d))).
Proof.
  intros d.
  assert (H : like_inv d) by (apply (bool_decide_unpack (like_inv _)); vm_compute; exact I).
  split; [exact H | apply profile_total_likes_counts_rows, H].
Defined.

(** ** Google sign-in: the early exits *)



(** ** Publishing a post *)

Lemma lstrip_idem z : lstrip (lstrip z) = lstrip z.
Proof.
  induction z as [|c r IH]; [reflexivity|]. simpl.
  destruct (py_isspace c) eqn:E; [exact IH|]. simpl. rewrite E. reflexivity.
Qed.

Lemma lstrip_keep y : (forall x r, y = x :: r -> py_isspace x = false) -> lstrip y = y.
Proof. destruct y as [|x r]; [done|]. intros H. simpl. rewrite (H x r eq_refl). done. Qed.

Lemma strip_idem s : strip (strip s) = strip s.
Proof.
  unfold strip at 1. rewrite lstrip_keep by (intros x r E; exact (strip_head _ _ _ E)).
  unfold strip, rstrip. rewrite rev_involutive, lstrip_idem. reflexivity.
Qed.

Lemma fresh_post_id_fresh ps : ps !! fresh_post_id ps = None.
Proof.
  destruct (ps !! fresh_post_id ps) as [p|] eqn:E; [|reflexivity].
  apply max_key_bound in E. unfold fresh_post_id in E. lia.
Qed.

Lemma count_likes_absent pid ls :
  Forall (fun l => like_post_id l <> pid) ls -> count_likes pid ls = 0.
Proof.
  induction 1 as [|l r Hl _ IH]; [reflexivity|].
  rewrite count_likes_cons, (proj2 (Z.eqb_neq _ _) Hl), IH. reflexivity.
Qed.

(** X19: publishing adds one post, by the signed-in member, under an id
    no post had, with a zero like counter, and keeps every other post; a
    supplied non-blank title is stored stripped of surrounding
    whitespace; and when every Like row refers to an existing post (the
    foreign key), a consistent store stays consistent. *)
Theorem new_post_publishes (uid : Z) (raw_title raw_content img vid : option pystr) (d : db) :
  let '(r, d') := new_post uid true raw_title raw_content img vid d in
  r = Redirect "post_detail" ["Post published to CS Community."%string] /\
  exists pid p, posts d !! pid = None /\ posts d' !! pid = Some p /\
    post_id p = pid /\ post_user_id p = uid /\ likes_count p = 0 /\
    (forall pid', pid' <> pid -> posts d' !! pid' = posts d !! pid') /\
    (strip (or_empty raw_title) <> [] -> title p = Some (strip (or_empty raw_title))) /\
    users d' = users d /\ comments d' = comments d /\ likes d' = likes d /\
    (like_inv d -> Forall (fun l => posts d !! like_post_id l <> None) (likes d) ->
     like_inv d').
Proof.
  unfold new_post. cbn [negb]. split; [reflexivity|].
  set (pid := fresh_post_id (posts d)).
  assert (Hfresh : posts d !! pid = None) by apply fresh_post_id_fresh.
  eexists pid, _. split; [exact Hfresh|].
  cbn -[insert lookup new_post_title strip]. split; [apply lookup_insert_eq|].
  split; [reflexivity|]. split; [reflexivity|]. split; [reflexivity|].
  split; [intros pid' Hne; apply lookup_insert_ne; congruence|].
  split.
  { intros Ht. f_equal. destruct raw_title as [[|c t]|]; [done| |done].
    cbn [strip_filter or_empty]. unfold new_post_title. cbn [or_empty].
    rewrite strip_idem. cbn [or_empty] in Ht.
    destruct (strip (c :: t)) as [|x y]; [done|]. reflexivity. }
  split; [reflexivity|]. split; [reflexivity|]. split; [reflexivity|].
  intros [Hu Hc] Href. split; [exact Hu|]. cbn -[insert lookup count_likes].
  apply map_Forall_insert_2; [|exact Hc]. cbn. symmetry. apply count_likes_absent.
  eapply Forall_impl; [exact Href|]. intros l Hl Heq. cbn beta in Hl.
  rewrite Heq in Hl. congruence.
Qed.

Lemma strip_length s : (length (strip s) <= length s)%nat.
Proof.
  unfold strip. destruct (lstrip_suffix s) as [pre Hpre].
  destruct (rstrip_prefix (lstrip s)) as [suf Hsuf].
  assert (length s = length pre + length (lstrip s))%nat as E1
    by (rewrite Hpre at 1; apply length_app).
  assert (length (lstrip s) = length (rstrip (lstrip s)) + length suf)%nat as E2
    by (rewrite Hsuf at 1; apply length_app).
  lia.
Qed.

(** X20: a title derived from the content (no title supplied, or a blank
    one) is at most 81 code points long: 80 of content and the
    ellipsis, or "Untitled". *)
Theorem new_post_derived_title_short (title_data content_data : option pystr) :
  strip (or_empty title_data) = [] ->
  (length (new_post_title title_data content_data) <= 81)%nat.
Proof.
  intros H. unfold new_post_title. rewrite H.
  pose proof (strip_length (slice_to 80 (or_empty content_data))) as Hs.
  assert (length (slice_to 80 (or_empty content_data)) <= 80)%nat
    by (unfold slice_to; rewrite length_firstn; lia).
  destruct (strip (slice_to 80 (or_empty content_data)) ++ _) as [|x r] eqn:E.
  - cbn. lia.
  - cbn [str_or]. rewrite <- E, length_app.
    destruct (Nat.ltb 80 _); cbn [length]; lia.
Qed.

Lemma new_post_derived_title_short_witness :
  strip (or_empty (Some (lit "   "))) = [] /\
  (length (new_post_title (Some (lit "   ")) (Some (repeat 97%Z 120))) <= 81)%nat.
Proof. split; [reflexivity | apply new_post_derived_title_short; reflexivity]. Defined.
